(** * ordenar_1.3.py: drag tables per folder, unit conversion, merge, export, plot

    A shallow embedding of [src/ordenar_1.3.py].  Python floats are binary64
    numbers, modelled by Rocq's primitive floats; the script's dictionaries
    keep insertion order and are association lists; printing, the spreadsheet
    and the figure are events of a trace; exceptions are results.

    The file system, pandas' CSV reader, the float power, SciPy's
    interpolation and NumPy's [linspace] are an environment the script runs
    against.  A data frame is the list of its rows, or of its columns for a
    file just read.  Left out: file names outside ASCII, index and dtype
    bookkeeping of data frames, the order pandas leaves rows of equal key
    in, and failures of the two file writes.  With a single folder
    [merged_df] is that folder's own table and is sorted in place; the
    plotting loop sorts every table again, so the alias does not show in
    what is written or drawn. *)

From Stdlib Require Import List String Ascii ZArith Bool Lia Floats.
From Stdlib Require Import Sorting.Sorted Sorting.Permutation.
Import ListNotations.

#[local] Set Warnings "-inexact-float".
#[local] Open Scope string_scope.
#[local] Open Scope list_scope.

(** ** Exceptions and results *)

(** A raised Python exception: its class name and [str(e)]. *)
Record exn := Exn { exn_type : string; exn_msg : string }.

Inductive result (A : Type) : Type :=
| Ok (a : A)
| Raise (e : exn).
Arguments Ok {A} a.
Arguments Raise {A} e.

Definition ValueError (msg : string) : exn := Exn "ValueError" msg.
Definition TypeError (msg : string) : exn := Exn "TypeError" msg.
Definition IndexError (msg : string) : exn := Exn "IndexError" msg.

(** ** The Python built-ins the script calls *)

Module Py.

(** [s.endswith(suffix)] *)
Fixpoint startswith (s prefix : string) : bool :=
  match prefix, s with
  | EmptyString, _ => true
  | String _ _, EmptyString => false
  | String p prefix', String c s' => Ascii.eqb c p && startswith s' prefix'
  end.

Fixpoint endswith (s suffix : string) : bool :=
  String.eqb s suffix ||
  match s with
  | EmptyString => false
  | String _ s' => endswith s' suffix
  end.

(** [s.split(sep)] for a one-character separator: never the empty list. *)
Fixpoint split (sep : ascii) (s : string) : list string :=
  match s with
  | EmptyString => [EmptyString]
  | String c s' =>
      if Ascii.eqb c sep then EmptyString :: split sep s'
      else match split sep s' with
           | [] => [String c EmptyString]
           | seg :: segs => String c seg :: segs
           end
  end.

(** [l[-1]] *)
Fixpoint index_last {A} (l : list A) : result A :=
  match l with
  | [] => Raise (IndexError "list index out of range")
  | [a] => Ok a
  | _ :: l' => index_last l'
  end.

(** [c in s] for a character. *)
Fixpoint contains (c : ascii) (s : string) : bool :=
  match s with
  | EmptyString => false
  | String c' s' => Ascii.eqb c' c || contains c s'
  end.

(** Index of the last occurrence of [c] in [s] ([s.rfind(c)]), if any. *)
Fixpoint rfind (c : ascii) (s : string) : option nat :=
  match s with
  | EmptyString => None
  | String c' s' =>
      match rfind c s' with
      | Some i => Some (S i)
      | None => if Ascii.eqb c' c then Some 0 else None
      end
  end.

Fixpoint take (n : nat) (s : string) : string :=
  match n, s with
  | S n', String c s' => String c (take n' s')
  | _, _ => EmptyString
  end.

Fixpoint drop (n : nat) (s : string) : string :=
  match n, s with
  | S n', String _ s' => drop n' s'
  | _, _ => s
  end.

Fixpoint all_dots (s : string) : bool :=
  match s with
  | EmptyString => true
  | String c s' => Ascii.eqb c "." && all_dots s'
  end.

(** [os.path.basename(p)] on POSIX: what follows the last slash. *)
Definition basename (p : string) : string :=
  match rfind "/" p with
  | Some i => drop (S i) p
  | None => p
  end.

(** [os.path.splitext(p)[0]] on POSIX: the extension starts at the last dot
    of the last path component, and leading dots of that component do not
    start an extension. *)
Definition splitext_root (p : string) : string :=
  let start := match rfind "/" p with Some i => S i | None => 0 end in
  let name := drop start p in
  match rfind "." name with
  | Some d => if all_dots (take d name) then p else take (start + d) p
  | None => p
  end.

(** [os.path.join(a, b)] on POSIX. *)
Definition path_join (a b : string) : string :=
  if startswith b "/" then b
  else if String.eqb a "" || endswith a "/" then a ++ b
  else a ++ "/" ++ b.

(** *** [float(s)] on a string

    ASCII only.  Blanks around the text are dropped; then a sign, then
    [inf], [infinity] or [nan] in any letter case, or a decimal number:
    digits (single underscores allowed between digits), an optional fraction,
    an optional exponent.  The decimal value is rounded to the nearest
    binary64 number, ties to even; anything else raises [ValueError]. *)

Definition is_space (c : ascii) : bool :=
  match c with
  | " "%char | "009"%char | "010"%char | "011"%char | "012"%char | "013"%char => true
  | _ => false
  end.

Fixpoint lstrip (l : list ascii) : list ascii :=
  match l with
  | c :: l' => if is_space c then lstrip l' else l
  | [] => []
  end.

Definition strip (l : list ascii) : list ascii :=
  rev (lstrip (rev (lstrip l))).

Definition digit_of (c : ascii) : option Z :=
  match c with
  | "0"%char => Some 0%Z | "1"%char => Some 1%Z | "2"%char => Some 2%Z
  | "3"%char => Some 3%Z | "4"%char => Some 4%Z | "5"%char => Some 5%Z
  | "6"%char => Some 6%Z | "7"%char => Some 7%Z | "8"%char => Some 8%Z
  | "9"%char => Some 9%Z
  | _ => None
  end.

(** ASCII lower case of a letter. *)
Definition lower (c : ascii) : ascii :=
  let n := nat_of_ascii c in
  if (65 <=? n)%nat && (n <=? 90)%nat then ascii_of_nat (n + 32) else c.

(** The digits after the first one of a digit part: [acc] is the value read
    so far and [cnt] the number of digits read. *)
Fixpoint digit_run (acc cnt : Z) (l : list ascii) : Z * Z * list ascii :=
  match l with
  | c :: l' =>
      match digit_of c with
      | Some d => digit_run (10 * acc + d) (cnt + 1) l'
      | None =>
          if Ascii.eqb c "_" then
            match l' with
            | c2 :: l'' =>
                match digit_of c2 with
                | Some d => digit_run (10 * acc + d) (cnt + 1) l''
                | None => (acc, cnt, l)
                end
            | [] => (acc, cnt, l)
            end
          else (acc, cnt, l)
      end
  | [] => (acc, cnt, l)
  end.

Definition digitpart (acc cnt : Z) (l : list ascii) : option (Z * Z * list ascii) :=
  match l with
  | c :: l' =>
      match digit_of c with
      | Some d => Some (digit_run (10 * acc + d) (cnt + 1) l')
      | None => None
      end
  | [] => None
  end.

Definition sign_of (l : list ascii) : bool * list ascii :=
  match l with
  | "-"%char :: l' => (true, l')
  | "+"%char :: l' => (false, l')
  | _ => (false, l)
  end.

(** Mantissa digits as an integer, number of fraction digits, rest. *)
Definition number_of (l : list ascii) : option (Z * Z * list ascii) :=
  match digitpart 0 0 l with
  | Some (m, _, rest) =>
      match rest with
      | "."%char :: rest' =>
          match digitpart m 0 rest' with
          | Some r => Some r
          | None => Some (m, 0%Z, rest')
          end
      | _ => Some (m, 0%Z, rest)
      end
  | None =>
      match l with
      | "."%char :: rest' => digitpart 0 0 rest'
      | _ => None
      end
  end.

(** The exponent, when the text goes on: [None] for trailing text that is
    no exponent. *)
Definition exponent_of (l : list ascii) : option Z :=
  match l with
  | [] => Some 0%Z
  | c :: l' =>
      if Ascii.eqb (lower c) "e" then
        let '(neg, l'') := sign_of l' in
        match digitpart 0 0 l'' with
        | Some (e, _, []) => Some (if neg then (- e)%Z else e)
        | _ => None
        end
      else None
  end.

(** The binary64 number nearest to [(-1)^neg * m * 10^e], for [m >= 0]. *)
Definition float_of_decimal (neg : bool) (m e : Z) : float :=
  match m with
  | Zpos p =>
      if (0 <=? e)%Z then
        SF2Prim (binary_round prec emax neg (p * Z.to_pos (10 ^ e)) 0)
      else
        SF2Prim (SFdiv prec emax (S754_finite neg p 0)
                   (S754_finite false (Z.to_pos (10 ^ (- e))) 0))
  | _ => if neg then neg_zero else zero
  end.

Definition float_of_Z (z : Z) : float :=
  SF2Prim (binary_normalize prec emax z 0 false).

Definition not_a_float (s : string) : exn :=
  ValueError ("could not convert string to float: '" ++ s ++ "'").

Definition float (s : string) : result float :=
  let '(neg, body) := sign_of (strip (list_ascii_of_string s)) in
  let word := string_of_list_ascii (map lower body) in
  if String.eqb word "inf" || String.eqb word "infinity" then
    Ok (if neg then neg_infinity else infinity)
  else if String.eqb word "nan" then Ok nan
  else
    match number_of body with
    | Some (m, k, rest) =>
        match exponent_of rest with
        | Some e => Ok (float_of_decimal neg m (e - k))
        | None => Raise (not_a_float s)
        end
    | None => Raise (not_a_float s)
    end.

End Py.

(** ** Filename parser *)

(** [float(filename.split('.')[-1])] *)
Definition extract_numeric_part (filename : string) : result float :=
  match Py.index_last (Py.split "." filename) with
  | Ok seg => Py.float seg
  | Raise e => Raise e
  end.

(** A string of decimal digits, and the integer it writes. *)
Fixpoint all_digits (s : string) : bool :=
  match s with
  | EmptyString => true
  | String c s' =>
      match Py.digit_of c with
      | Some _ => all_digits s'
      | None => false
      end
  end.

Fixpoint digits_value_from (acc : Z) (s : string) : Z :=
  match s with
  | EmptyString => acc
  | String c s' =>
      match Py.digit_of c with
      | Some d => digits_value_from (10 * acc + d) s'
      | None => acc
      end
  end.

Definition digits_value (s : string) : Z := digits_value_from 0 s.

(** ** Data model *)

(** A value read from a CSV file: pandas gives an integer, a float (missing
    values are NaN) or text. *)
Inductive cell :=
| CInt (z : Z)
| CFloat (x : float)
| CStr (s : string).

(** The table [pd.read_csv] returns, column by column. *)
Definition frame := list (list cell).

(** [df.shape[1]] *)
Definition shape1 (df : frame) : nat := List.length df.

(** [df.iloc[-1, col]] *)
Definition iloc_last (df : frame) (col : nat) : result cell :=
  match nth_error df col with
  | Some column =>
      match Py.index_last column with
      | Ok v => Ok v
      | Raise _ => Raise (IndexError "single positional indexer is out-of-bounds")
      end
  | None => Raise (IndexError "single positional indexer is out-of-bounds")
  end.

(** [df.empty] for a table that has columns: no rows. *)
Definition frame_empty {A} (rows : list A) : bool :=
  match rows with [] => true | _ :: _ => false end.

(** A Python dictionary with string keys, in insertion order. *)
Definition dict (V : Type) := list (string * V).

(** [d[k] = v]: a key already there keeps its place. *)
Fixpoint dict_set {V} (k : string) (v : V) (d : dict V) : dict V :=
  match d with
  | [] => [(k, v)]
  | (k', v') :: d' =>
      if String.eqb k' k then (k', v) :: d' else (k', v') :: dict_set k v d'
  end.


(** One row of a folder's table, with the columns the script gives it. *)
Record row := Row {
  FileName : string;
  LastValue : cell;
  NumericPart : float;
  Drag_N : float;
  Potencia_necesaria : float }.

Definition folder_table := list row.

(** What a folder contributes to a merged row: its columns other than the
    key, under the suffix the merge gave them. *)
Record part := Part {
  p_suffix : string;
  p_FileName : string;
  p_LastValue : cell;
  p_Drag_N : float;
  p_Potencia_necesaria : float }.

Record merged_row := MRow {
  m_NumericPart : float;
  m_parts : list part }.

Definition merged_table := list merged_row.

(** ** Effects *)

Inductive event :=
| Print (s : string)
| PrintFrame (df : folder_table)
| ToExcel (path : string) (df : merged_table)
| Figure
| Plot (label : string) (x y : list float)
| Scatter (label : string) (x y : list float)
| Decorate
| SaveFig (path : string)
| Show.

(** A computation: what it printed, wrote and drew, and how it ended. *)
Definition M (A : Type) : Type := list event * result A.

Definition ret {A} (a : A) : M A := ([], Ok a).

Definition bind {A B} (m : M A) (k : A -> M B) : M B :=
  match m with
  | (tr, Ok a) => let '(tr', r) := k a in (tr ++ tr', r)
  | (tr, Raise e) => (tr, Raise e)
  end.

Definition emit (ev : event) : M unit := ([ev], Ok tt).
Definition print (s : string) : M unit := emit (Print s).
Definition lift {A} (r : result A) : M A := ([], r).

Declare Scope py_scope.
Delimit Scope py_scope with py.
Notation "x <- m ;; k" := (bind m (fun x => k))
  (at level 61, m at next level, right associativity) : py_scope.
Notation "m ;; k" := (bind m (fun _ => k))
  (at level 61, right associativity) : py_scope.
#[local] Open Scope py_scope.

Definition trace {A} (m : M A) : list event := fst m.
Definition outcome {A} (m : M A) : result A := snd m.

(** An operation applied along a column: the first element that fails
    raises. *)
Fixpoint mapM {A B} (f : A -> result B) (l : list A) : result (list B) :=
  match l with
  | [] => Ok []
  | a :: l' =>
      match f a with
      | Ok b => match mapM f l' with
                | Ok bs => Ok (b :: bs)
                | Raise e => Raise e
                end
      | Raise e => Raise e
      end
  end.

(** ** What the script runs against *)

(** The file system and the numeric libraries: [os.listdir],
    [pd.read_csv], the float power [x ** y] (on the positive bases the
    script raises to a power it returns a float and raises nothing), and
    SciPy's cubic [interp1d] and NumPy's [linspace]. *)
Record env := Env {
  listdir : string -> result (list string);
  read_csv : string -> result frame;
  float_pow : float -> float -> float;
  interp1d_cubic : list float -> list float -> result (float -> float);
  linspace : float -> float -> nat -> list float }.

(** ** Unit conversion *)

Definition lbf_a_N : float := 4.44822%float.
Definition fts_a_ms : float := 0.3048%float.

(** The number a cell stands for in float arithmetic: an integer is
    converted to the nearest float; text is no number. *)
Definition cell_number (c : cell) : option float :=
  match c with
  | CInt z => Some (Py.float_of_Z z)
  | CFloat x => Some x
  | CStr _ => None
  end.

(** [value * factor] for one element of a column. *)
Definition cell_mul (factor : float) (c : cell) : result float :=
  match cell_number c with
  | Some m => Ok (m * factor)%float
  | None => Raise (TypeError "can't multiply sequence by non-int of type 'float'")
  end.

(** ** Folder aggregator *)

Section Script.

Variable E : env.

Definition read_error (filename : string) (e : exn) : string :=
  "Error reading " ++ filename ++ ": " ++ exn_msg e.

Definition no_second_column (filename : string) : string :=
  "File " ++ filename ++ " does not have a second column.".

(** The body of the loop over [os.listdir(folder_path)]. *)
Definition scan_file (folder_path filename : string) (data : dict cell)
  : M (dict cell) :=
  if Py.endswith filename ".csv" then
    let file_path := Py.path_join folder_path filename in
    match read_csv E file_path with
    | Ok df =>
        if (1 <? shape1 df)%nat then
          match iloc_last df 1 with
          | Ok last_value =>
              let file_base_name := Py.splitext_root filename in
              ret (dict_set file_base_name last_value data)
          | Raise e => print (read_error filename e) ;; ret data
          end
        else print (no_second_column filename) ;; ret data
    | Raise e => print (read_error filename e) ;; ret data
    end
  else ret data.

Fixpoint scan (folder_path : string) (names : list string) (data : dict cell)
  : M (dict cell) :=
  match names with
  | [] => ret data
  | filename :: names' =>
      data' <- scan_file folder_path filename data ;;
      scan folder_path names' data'
  end.

(** The rows of [result_df] once all five columns are set. *)
Fixpoint build_rows (items : dict cell) (numeric drag power : list float)
  : folder_table :=
  match items, numeric, drag, power with
  | (name, v) :: items', k :: numeric', d :: drag', p :: power' =>
      Row name v k d p :: build_rows items' numeric' drag' power'
  | _, _, _, _ => []
  end.

Fixpoint map2 {A B C} (f : A -> B -> C) (l : list A) (l' : list B) : list C :=
  match l, l' with
  | a :: l, b :: l' => f a b :: map2 f l l'
  | _, _ => []
  end.

(** The columns computed from the scanned dictionary: lines 56 to 67. *)
Definition convert (data : dict cell) : result folder_table :=
  match mapM extract_numeric_part (map fst data) with
  | Ok numeric =>
      let v_true := map (fun k => (k * fts_a_ms)%float) numeric in
      match mapM (cell_mul lbf_a_N) (map snd data) with
      | Ok drag =>
          let Potencia_necesaria :=
            map2 (fun v d => (v * d / 1000)%float) v_true drag in
          let numeric' := map (fun k => (k * fts_a_ms)%float) numeric in
          Ok (build_rows data numeric' drag Potencia_necesaria)
      | Raise e => Raise e
      end
  | Raise e => Raise e
  end.

(** The body of the loop over [folder_paths]. *)
Definition process_folder (folder_path : string) (all_data : dict folder_table)
  : M (dict folder_table) :=
  names <- lift (listdir E folder_path) ;;
  data <- scan folder_path names [] ;;
  if frame_empty data then
    print ("No valid data found in folder " ++ folder_path ++ ".") ;;
    ret all_data
  else
    result_df <- lift (convert data) ;;
    emit (PrintFrame result_df) ;;
    ret (dict_set folder_path result_df all_data).

Fixpoint process_folders (folder_paths : list string)
  (all_data : dict folder_table) : M (dict folder_table) :=
  match folder_paths with
  | [] => ret all_data
  | folder_path :: rest =>
      all_data' <- process_folder folder_path all_data ;;
      process_folders rest all_data'
  end.

Definition process_csv_folders (folder_paths : list string)
  : M (dict folder_table) :=
  let raiz_sigma_1700ft :=
    float_pow E (float_pow E (1 - 22.558 * float_pow E 10 (-6) * 1700) 4.2559)
      (1 / 2) in
  let raiz_sigma_13000ft :=
    float_pow E (float_pow E (1 - 22.558 * float_pow E 10 (-6) * 13000) 4.2559)
      (1 / 2) in
  let Tas_Eas_1700ft := (fts_a_ms * raiz_sigma_1700ft)%float in
  let Tas_Eas_13000ft := (fts_a_ms * raiz_sigma_13000ft)%float in
  process_folders folder_paths [].

(** The same with the density-ratio computations left out. *)
Definition process_csv_folders_without_sigma (folder_paths : list string)
  : M (dict folder_table) :=
  process_folders folder_paths [].

End Script.

(** ** Merger *)

(** Equality of join keys: pandas matches keys that compare equal, and
    matches NaN with NaN. *)
Definition key_eqb (a b : float) : bool :=
  (a =? b)%float || (is_nan a && is_nan b).

(** The order of [sort_values]: ascending, NaN last. *)
Definition key_leb (a b : float) : bool :=
  is_nan b || (a <=? b)%float.

(** The first table of the merge loop: its columns keep their names. *)
Definition part_of_row (suffix : string) (r : row) : part :=
  Part suffix (FileName r) (LastValue r) (Drag_N r) (Potencia_necesaria r).

Definition of_folder_table (df : folder_table) : merged_table :=
  map (fun r => MRow (NumericPart r) [part_of_row "" r]) df.

(** [pd.merge(left, right, on='NumericPart', suffixes=('', suffix))]: the
    inner join; each left row is paired with every right row of the same
    key and keeps the left key. *)
Definition pd_merge (left : merged_table) (right : folder_table)
  (suffix : string) : merged_table :=
  flat_map
    (fun l =>
       map (fun r => MRow (m_NumericPart l) (m_parts l ++ [part_of_row suffix r]))
         (filter (fun r => key_eqb (m_NumericPart l) (NumericPart r)) right))
    left.

(** The loop over [all_dfs.items()]. *)
Fixpoint merge_loop (merged_df : option merged_table)
  (items : dict folder_table) : option merged_table :=
  match items with
  | [] => merged_df
  | (folder, df) :: items' =>
      match merged_df with
      | None => merge_loop (Some (of_folder_table df)) items'
      | Some m =>
          merge_loop (Some (pd_merge m df ("_" ++ Py.basename folder))) items'
      end
  end.

(** [sort_values(by='NumericPart')], as an insertion sort that keeps the
    order of rows with equal keys. *)
Section Sort.
Context {A : Type} (key : A -> float).

Fixpoint insert_by (a : A) (l : list A) : list A :=
  match l with
  | [] => [a]
  | b :: l' =>
      if key_leb (key a) (key b) then a :: l else b :: insert_by a l'
  end.

Definition sort_values (l : list A) : list A := fold_right insert_by [] l.

End Sort.

(** [Series.min()] and [Series.max()]: NaN is skipped, and is the answer
    when nothing else is there. *)
Definition series_min (l : list float) : float :=
  fold_left
    (fun acc x =>
       if is_nan x then acc
       else if is_nan acc then x
       else if (x <? acc)%float then x else acc)
    l nan.

Definition series_max (l : list float) : float :=
  fold_left
    (fun acc x =>
       if is_nan x then acc
       else if is_nan acc then x
       else if (acc <? x)%float then x else acc)
    l nan.

(** ** Export and plot *)

Section Run.

Variable E : env.

(** The body of the plotting loop. *)
Definition plot_folder (folder : string) (df : folder_table) : M unit :=
  let df := sort_values NumericPart df in
  let x := map NumericPart df in
  let y := map Potencia_necesaria df in
  interp_func <- lift (interp1d_cubic E x y) ;;
  let x_interp := linspace E (series_min x) (series_max x) 500 in
  let y_interp := map interp_func x_interp in
  emit (Plot ("Power (" ++ Py.basename folder ++ ")") x_interp y_interp) ;;
  emit (Scatter ("Data points " ++ Py.basename folder) x y).

Fixpoint plot_loop (items : dict folder_table) : M unit :=
  match items with
  | [] => ret tt
  | (folder, df) :: items' => plot_folder folder df ;; plot_loop items'
  end.

(** Lines 101 to 141: the figure, a curve and the points of every folder,
    labels and grid, the image file, the window. *)
Definition draw (all_dfs : dict folder_table) (graph_file : string) : M unit :=
  emit Figure ;;
  plot_loop all_dfs ;;
  emit Decorate ;;
  emit (SaveFig graph_file) ;;
  print ("Graph saved as '" ++ graph_file ++ "'.") ;;
  emit Show.

(** Lines 94 to 141, for a merged table that has rows. *)
Definition export_and_plot (all_dfs : dict folder_table)
  (merged_df : merged_table) (output_file graph_file : string) : M unit :=
  let merged_df := sort_values m_NumericPart merged_df in
  emit (ToExcel output_file merged_df) ;;
  print ("Output file '" ++ output_file ++ "' generated successfully.") ;;
  draw all_dfs graph_file.

Definition no_merged_data : string := "No valid merged data found. Exiting.".

(** What follows [process_csv_folders] in [plot_data]. *)
Definition merge_export_plot (all_dfs : dict folder_table)
  (output_file graph_file : string) : M unit :=
  match merge_loop None all_dfs with
  | None => print no_merged_data
  | Some merged_df =>
      if frame_empty merged_df then print no_merged_data
      else export_and_plot all_dfs merged_df output_file graph_file
  end.

Definition plot_data (folder_paths : list string)
  (output_file graph_file : string) : M unit :=
  all_dfs <- process_csv_folders E folder_paths ;;
  merge_export_plot all_dfs output_file graph_file.

(** [plot_data] with the density-ratio computations left out. *)
Definition plot_data_without_sigma (folder_paths : list string)
  (output_file graph_file : string) : M unit :=
  all_dfs <- process_csv_folders_without_sigma E folder_paths ;;
  merge_export_plot all_dfs output_file graph_file.

End Run.

(** The script as run: [plot_data] is called twice on the same folders
    and output files. *)
Definition folder_paths : list string :=
  ["/Users/martinalonsolalanda/jsbsim-master/Results/1700ft-6100lbm";
   "/Users/martinalonsolalanda/jsbsim-master/Results/13000ft-6100lbm"].

Definition script (E : env) : M unit :=
  plot_data E folder_paths "merged_output.xlsx" "merged_output_graph.png" ;;
  plot_data E folder_paths "merged_output.xlsx" "merged_output_graph.png".

(** Does the trace write the spreadsheet, or save the image? *)
Definition is_export (ev : event) : bool :=
  match ev with ToExcel _ _ => true | _ => false end.



Definition is_diagnostic (ev : event) : bool :=
  match ev with
  | Print _ | PrintFrame _ => true
  | _ => false
  end.

(** ** Keys up to the sign of zero *)

(** Both zeros are one key. *)
Definition unsigned_zero (x : spec_float) : spec_float :=
  match x with
  | S754_zero _ => S754_zero false
  | _ => x
  end.

(** ** Files of a folder, as the scan sees them *)

(** A CSV file that reads as a table of two columns or more whose second
    column has a last row, holding [v]. *)
Definition file_value (E : env) (folder_path filename : string) (v : cell)
  : Prop :=
  Py.endswith filename ".csv" = true /\
  exists df, read_csv E (Py.path_join folder_path filename) = Ok df /\
             (1 < shape1 df)%nat /\ iloc_last df 1 = Ok v.


(** ** Rows and tables of the folder loop *)




(** ** Keys of a table, and ascending order *)

(** The key [k] appears in the table. *)
Definition has_key {A} (key : A -> float) (rows : list A) (k : float) : Prop :=
  exists r, In r rows /\ key_eqb (key r) k = true.

(** No two rows of the table have the same key. *)
Definition unique_keys {A} (key : A -> float) (rows : list A) : Prop :=
  ForallOrdPairs (fun r r' => key_eqb (key r) (key r') = false) rows.

(** Every row is at most every later row, NaN keys last. *)
Definition key_le {A} (key : A -> float) (r r' : A) : Prop :=
  key_leb (key r) (key r') = true.

Definition ascending {A} (key : A -> float) (rows : list A) : Prop :=
  StronglySorted (key_le key) rows.

(** ** Concrete folders

    The libraries of the examples: a cubic interpolation that refuses
    fewer than four points, and evenly spaced samples. *)

Definition cubic_needs_four (x y : list float) : result (float -> float) :=
  if (List.length x <? 4)%nat then
    Raise (ValueError "cubic interpolation needs at least 4 points")
  else Ok (fun _ => 0%float).

Fixpoint samples (start step : float) (n : nat) : list float :=
  match n with
  | O => []
  | S n' => start :: samples (start + step)%float step n'
  end.

Definition evenly_spaced (start stop : float) (num : nat) : list float :=
  samples start ((stop - start) / Py.float_of_Z (Z.of_nat (num - 1)))%float num.

Definition no_such_file (p : string) : exn :=
  Exn "FileNotFoundError" ("No such file or directory: '" ++ p ++ "'").

(** A file of two columns whose second column ends with [v]. *)
Definition two_columns (v : cell) : frame :=
  [[CFloat 0; CFloat 1]; [CInt 0; v]].

(** Files by path. *)
Fixpoint lookup_file (files : list (string * frame)) (p : string)
  : result frame :=
  match files with
  | [] => Raise (no_such_file p)
  | (q, df) :: files' => if String.eqb q p then Ok df else lookup_file files' p
  end.

Fixpoint lookup_dir (dirs : list (string * list string)) (p : string)
  : result (list string) :=
  match dirs with
  | [] => Raise (no_such_file p)
  | (q, names) :: dirs' => if String.eqb q p then Ok names else lookup_dir dirs' p
  end.

Definition disk (dirs : list (string * list string))
  (files : list (string * frame)) : env :=
  Env (lookup_dir dirs) (lookup_file files) (fun x _ => x)
    cubic_needs_four evenly_spaced.

(** The end-to-end scenario: folders A and B, each with the runs 100 and
    200. *)
Definition scenario : env :=
  disk [("A", ["run.100.csv"; "run.200.csv"]);
        ("B", ["run.100.csv"; "run.200.csv"])]
       [("A/run.100.csv", two_columns (CInt 50));
        ("A/run.200.csv", two_columns (CInt 80));
        ("B/run.100.csv", two_columns (CInt 55));
        ("B/run.200.csv", two_columns (CInt 85))].

(** The merged table the scenario is to give. *)
Definition scenario_merged : merged_table :=
  [MRow 30.48
     [Part "" "run.100" (CInt 50) (50 * 4.44822) (30.48 * (50 * 4.44822) / 1000);
      Part "_B" "run.100" (CInt 55) (55 * 4.44822) (30.48 * (55 * 4.44822) / 1000)];
   MRow 60.96
     [Part "" "run.200" (CInt 80) (80 * 4.44822) (60.96 * (80 * 4.44822) / 1000);
      Part "_B" "run.200" (CInt 85) (85 * 4.44822) (60.96 * (85 * 4.44822) / 1000)]].


(** A folder with a file whose name does not end in a number. *)
Definition named_data : env :=
  disk [("A", ["data.csv"; "run.100.csv"])]
       [("A/data.csv", two_columns (CInt 50));
        ("A/run.100.csv", two_columns (CInt 80))].

(** A folder with an unreadable file, a one-column file and a file
    without rows besides a good one. *)
Definition damaged : env :=
  disk [("A", ["broken.1.csv"; "narrow.2.csv"; "empty.3.csv"; "run.100.csv";
               "notes.txt"])]
       [("A/narrow.2.csv", [[CInt 1; CInt 2]]);
        ("A/empty.3.csv", [[]; []]);
        ("A/run.100.csv", two_columns (CInt 80))].

(** A folder with four runs, enough for a cubic curve. *)
Definition four_runs : env :=
  disk [("A", ["run.400.csv"; "run.100.csv"; "run.300.csv"; "run.200.csv"])]
       [("A/run.100.csv", two_columns (CInt 50));
        ("A/run.200.csv", two_columns (CFloat 80.5));
        ("A/run.300.csv", two_columns (CInt 120));
        ("A/run.400.csv", two_columns (CInt 170))].

(** The tables of the folders A and B of the scenario. *)
Definition run_row (name : string) (k : float) (v : Z) : row :=
  Row name (CInt v) (k * 0.3048) (Py.float_of_Z v * 4.44822)
    (k * 0.3048 * (Py.float_of_Z v * 4.44822) / 1000).

Definition table_A : folder_table :=
  [run_row "run.100" 100 50; run_row "run.200" 200 80].

Definition table_B : folder_table :=
  [run_row "run.100" 100 55; run_row "run.200" 200 85].

Definition table_C : folder_table :=
  [run_row "run.300" 300 55].

(** ** More of the script: names for what the further properties speak of *)

(** A name the scan reads: it ends in [.csv]. *)
Definition is_csv (filename : string) : bool := Py.endswith filename ".csv".

(** * Properties *)

(** ** Float comparison, through the binary64 specification *)

Section FloatOrder.

#[local] Open Scope Z_scope.

Lemma pos_compare_cont_eq (m1 m2 : positive) :
  Pos.compare_cont Eq m1 m2 = Pos.compare m1 m2.
Proof. reflexivity. Qed.

Lemma SFeqb_iff (x y : spec_float) :
  SFeqb x y = true <-> unsigned_zero x = unsigned_zero y /\ x <> S754_nan.
Proof.
  unfold SFeqb.
  destruct x as [sx|sx| |sx mx ex], y as [sy|sy| |sy my ey]; simpl;
    repeat match goal with s : bool |- _ => destruct s end; simpl;
    rewrite ?pos_compare_cont_eq;
    repeat match goal with
      | |- context [Z.compare ?a ?b] => destruct (Z.compare_spec a b)
      | |- context [Pos.compare ?a ?b] => destruct (Pos.compare_spec a b)
      end;
    simpl; subst;
    (split;
     [ intros Heq; try discriminate Heq; split; congruence
     | intros [Hz Hn]; try reflexivity; try congruence;
       try (inversion Hz; lia) ]).
Qed.

Lemma is_nan_spec (a : float) : is_nan a = true <-> Prim2SF a = S754_nan.
Proof.
  unfold is_nan. rewrite eqb_spec, negb_true_iff.
  split.
  - intros H. destruct (Prim2SF a) eqn:Ha; try reflexivity; exfalso.
    + unfold SFeqb in H. simpl in H. discriminate.
    + unfold SFeqb in H. simpl in H. destruct s; discriminate.
    + assert (SFeqb (S754_finite s m e) (S754_finite s m e) = true) as H'.
      { apply SFeqb_iff. split; [reflexivity | discriminate]. }
      congruence.
  - intros ->. reflexivity.
Qed.

Lemma key_eqb_iff (a b : float) :
  key_eqb a b = true <-> unsigned_zero (Prim2SF a) = unsigned_zero (Prim2SF b).
Proof.
  unfold key_eqb. rewrite orb_true_iff, andb_true_iff, eqb_spec, SFeqb_iff.
  rewrite !is_nan_spec. split.
  - intros [[H _]|[Ha Hb]]; [exact H | now rewrite Ha, Hb].
  - intros H. destruct (Prim2SF a) eqn:Ha;
      try (left; split; [exact H | discriminate]).
    right. split; [reflexivity|].
    destruct (Prim2SF b); simpl in H; congruence.
Qed.

Lemma key_eqb_refl (a : float) : key_eqb a a = true.
Proof. now apply key_eqb_iff. Qed.

Lemma key_eqb_sym (a b : float) : key_eqb a b = key_eqb b a.
Proof.
  apply eq_true_iff_eq. rewrite !key_eqb_iff. split; congruence.
Qed.

Lemma key_eqb_trans (a b c : float) :
  key_eqb a b = true -> key_eqb b c = true -> key_eqb a c = true.
Proof. rewrite !key_eqb_iff. congruence. Qed.

(** Keys that are equal for the join are exchangeable in [key_eqb]. *)
Lemma key_eqb_congr (a b c : float) :
  key_eqb a b = true -> key_eqb a c = key_eqb b c.
Proof.
  intros H. apply eq_true_iff_eq. split; intros H'.
  - apply key_eqb_trans with a; [now rewrite key_eqb_sym | exact H'].
  - apply key_eqb_trans with b; assumption.
Qed.

Ltac compare_cases :=
  repeat match goal with
    | |- context [Z.compare ?a ?b] => destruct (Z.compare_spec a b)
    | H : context [Z.compare ?a ?b] |- _ => destruct (Z.compare_spec a b)
    | |- context [Pos.compare_cont Eq ?a ?b] =>
        change (Pos.compare_cont Eq a b) with (Pos.compare a b);
        destruct (Pos.compare_spec a b)
    | H : context [Pos.compare_cont Eq ?a ?b] |- _ =>
        change (Pos.compare_cont Eq a b) with (Pos.compare a b) in H;
        destruct (Pos.compare_spec a b)
    end;
  simpl in *; try reflexivity; try discriminate; try lia.

Lemma SFleb_total (x y : spec_float) :
  x <> S754_nan -> y <> S754_nan -> SFleb x y = false -> SFleb y x = true.
Proof.
  unfold SFleb.
  destruct x as [sx|sx| |sx mx ex], y as [sy|sy| |sy my ey];
    intros Hx Hy; try congruence; simpl;
    repeat match goal with s : bool |- _ => destruct s end;
    simpl; try congruence; intros H; compare_cases.
Qed.

Lemma SFleb_trans (x y z : spec_float) :
  SFleb x y = true -> SFleb y z = true -> SFleb x z = true.
Proof.
  unfold SFleb.
  destruct x as [sx|sx| |sx mx ex], y as [sy|sy| |sy my ey],
      z as [sz|sz| |sz mz ez]; simpl;
    repeat match goal with s : bool |- _ => destruct s end;
    simpl; try congruence; intros H1 H2; compare_cases.
Qed.

Lemma SFleb_nan_l (x : spec_float) : SFleb S754_nan x = false.
Proof. destruct x; reflexivity. Qed.

Lemma is_nan_false (a : float) : is_nan a = false <-> Prim2SF a <> S754_nan.
Proof.
  rewrite <- is_nan_spec. destruct (is_nan a); split; congruence.
Qed.

Lemma key_leb_total (a b : float) : key_leb a b = false -> key_leb b a = true.
Proof.
  unfold key_leb. rewrite orb_false_iff, orb_true_iff, !leb_spec.
  intros [Hb Hab]. destruct (is_nan a) eqn:Ha; [now left | right].
  apply SFleb_total; [now apply is_nan_false .. | exact Hab].
Qed.

Lemma key_leb_trans (a b c : float) :
  key_leb a b = true -> key_leb b c = true -> key_leb a c = true.
Proof.
  unfold key_leb. rewrite !orb_true_iff, !leb_spec.
  intros Hab [Hc|Hbc]; [now left | right].
  destruct Hab as [Hb|Hab].
  - apply is_nan_spec in Hb. rewrite Hb, SFleb_nan_l in Hbc. discriminate.
  - now apply SFleb_trans with (Prim2SF b).
Qed.

(** Without NaN the sort order is [<=] on floats. *)
Lemma key_leb_leb (a b : float) :
  is_nan b = false -> key_leb a b = (a <=? b)%float.
Proof. unfold key_leb. now intros ->. Qed.

End FloatOrder.

(** ** Traces and outcomes of sequenced computations *)

Lemma bind_ok {A B} (m : M A) (k : A -> M B) (a : A) :
  outcome m = Ok a ->
  bind m k = (trace m ++ trace (k a), outcome (k a)).
Proof.
  destruct m as [tr r]. simpl. intros ->. simpl. now destruct (k a).
Qed.

Lemma bind_raise {A B} (m : M A) (k : A -> M B) (e : exn) :
  outcome m = Raise e -> bind m k = (trace m, Raise e).
Proof. destruct m as [tr r]. simpl. now intros ->. Qed.

Lemma outcome_cases {A} (r : result A) : (exists a, r = Ok a) \/ (exists e, r = Raise e).
Proof. destruct r; eauto. Qed.

(** An event of [m ;; k] is an event of [m], or of [k] run on the value
    of [m]. *)
Lemma in_trace_bind {A B} (m : M A) (k : A -> M B) (ev : event) :
  In ev (trace (bind m k)) ->
  In ev (trace m) \/ exists a, outcome m = Ok a /\ In ev (trace (k a)).
Proof.
  destruct (outcome_cases (outcome m)) as [[a Ha]|[e He]].
  - rewrite (bind_ok _ _ _ Ha). simpl. rewrite in_app_iff.
    intros [H|H]; [now left | right; eauto].
  - rewrite (bind_raise _ _ _ He). simpl. now left.
Qed.

Lemma bind_assoc {A B C} (m : M A) (f : A -> M B) (g : B -> M C) :
  bind (bind m f) g = bind m (fun a => bind (f a) g).
Proof.
  destruct m as [tr [a|e]]; simpl; [|reflexivity].
  destruct (f a) as [tr' [b|e]]; simpl; [|reflexivity].
  destruct (g b) as [tr'' r]. now rewrite app_assoc.
Qed.

Lemma bind_ext {A B} (m : M A) (k k' : A -> M B) :
  (forall a, k a = k' a) -> bind m k = bind m k'.
Proof.
  intros Hk. destruct m as [tr [a|e]]; simpl; [now rewrite Hk | reflexivity].
Qed.

Lemma bind_ret_l {A B} (a : A) (k : A -> M B) : bind (ret a) k = k a.
Proof. unfold ret, bind. now destruct (k a). Qed.

(** ** Splitting file names *)

Lemma split_not_nil (sep : ascii) (s : string) : Py.split sep s <> [].
Proof.
  induction s as [|c s IH]; simpl; [discriminate|].
  destruct (Ascii.eqb c sep); [discriminate|].
  destruct (Py.split sep s); [contradiction | discriminate].
Qed.

(** [(p + sep + t).split(sep) == p.split(sep) + t.split(sep)] *)
Lemma split_app (sep : ascii) (p t : string) :
  Py.split sep (p ++ String sep t) = Py.split sep p ++ Py.split sep t.
Proof.
  induction p as [|c p IH]; simpl.
  - now rewrite Ascii.eqb_refl.
  - destruct (Ascii.eqb c sep); [now rewrite IH|].
    rewrite IH. pose proof (split_not_nil sep p) as Hp.
    destruct (Py.split sep p); [contradiction | reflexivity].
Qed.

Lemma split_no_sep (sep : ascii) (s : string) :
  Py.contains sep s = false -> Py.split sep s = [s].
Proof.
  induction s as [|c s IH]; simpl; [reflexivity|].
  rewrite orb_false_iff. intros [Hc Hs]. rewrite Hc, (IH Hs). reflexivity.
Qed.

Lemma index_last_app {A} (l l' : list A) :
  l' <> [] -> Py.index_last (l ++ l') = Py.index_last l'.
Proof.
  intros Hl'. induction l as [|a l IH]; [reflexivity|].
  simpl. destruct (l ++ l') eqn:Happ; [|exact IH].
  destruct l, l'; simpl in Happ; congruence.
Qed.

Lemma extract_numeric_part_app (p t : string) :
  extract_numeric_part (p ++ String "." t) = extract_numeric_part t.
Proof.
  unfold extract_numeric_part.
  now rewrite split_app, index_last_app by apply split_not_nil.
Qed.

Lemma extract_numeric_part_segment (s : string) :
  Py.contains "." s = false -> extract_numeric_part s = Py.float s.
Proof.
  intros Hs. unfold extract_numeric_part. now rewrite (split_no_sep _ _ Hs).
Qed.

(** *** Numbers written in decimal digits *)

Section Digits.

#[local] Open Scope Z_scope.

Lemma digit_char (c : ascii) (d : Z) :
  Py.digit_of c = Some d ->
  Py.is_space c = false /\ Py.lower c = c /\
  Ascii.eqb c "i" = false /\ Ascii.eqb c "n" = false /\
  Ascii.eqb c "-" = false /\ Ascii.eqb c "+" = false /\ 0 <= d.
Proof.
  destruct c as [[|] [|] [|] [|] [|] [|] [|] [|]]; simpl;
    try discriminate; intros H; inversion H; subst;
    repeat split; try (vm_compute; reflexivity); lia.
Qed.

Lemma digits_value_from_nonneg (s : string) (acc : Z) :
  0 <= acc -> 0 <= digits_value_from acc s.
Proof.
  revert acc. induction s as [|c s IH]; intros acc Hacc;
    cbn [digits_value_from]; [exact Hacc|].
  destruct (Py.digit_of c) as [d|] eqn:Hd; [|exact Hacc].
  apply IH. apply digit_char in Hd as [_ [_ [_ [_ [_ [_ Hd]]]]]]. lia.
Qed.

Lemma digit_run_digits (s : string) (acc cnt : Z) :
  all_digits s = true ->
  exists cnt',
    Py.digit_run acc cnt (list_ascii_of_string s)
    = (digits_value_from acc s, cnt', []).
Proof.
  revert acc cnt. induction s as [|c s IH]; intros acc cnt;
    cbn [all_digits digits_value_from list_ascii_of_string Py.digit_run].
  - eauto.
  - destruct (Py.digit_of c) as [d|]; [apply IH | discriminate].
Qed.

Lemma lstrip_digit (c : ascii) (l : list ascii) (d : Z) :
  Py.digit_of c = Some d -> Py.lstrip (c :: l) = c :: l.
Proof.
  intros Hd. apply digit_char in Hd as [Hsp _]. simpl. now rewrite Hsp.
Qed.

Lemma all_digits_in (s : string) (c : ascii) :
  all_digits s = true -> In c (list_ascii_of_string s) ->
  exists d, Py.digit_of c = Some d.
Proof.
  induction s as [|c' s IH]; simpl; [intros _ []|].
  destruct (Py.digit_of c') as [d|] eqn:Hd; [|discriminate].
  intros Hs [<-|Hin]; eauto.
Qed.

Lemma strip_digits (s : string) :
  all_digits s = true ->
  Py.strip (list_ascii_of_string s) = list_ascii_of_string s.
Proof.
  intros Hs. unfold Py.strip.
  assert (forall l, (forall c, In c l -> exists d, Py.digit_of c = Some d) ->
                    Py.lstrip l = l) as Hl.
  { intros [|c l] Hall; [reflexivity|].
    destruct (Hall c (or_introl eq_refl)) as [d Hd].
    now apply lstrip_digit with d. }
  rewrite (Hl (list_ascii_of_string s)) by (intros c; now apply all_digits_in).
  rewrite Hl; [apply rev_involutive|].
  intros c Hc. apply in_rev in Hc. now apply all_digits_in with s.
Qed.

Lemma float_of_decimal_integer (m : Z) :
  0 <= m -> Py.float_of_decimal false m 0 = Py.float_of_Z m.
Proof.
  intros Hm. destruct m as [|p|p]; [reflexivity| |lia].
  unfold Py.float_of_decimal, Py.float_of_Z. simpl Z.leb. cbv iota.
  change (Z.to_pos (10 ^ 0)) with 1%positive. now rewrite Pos.mul_1_r.
Qed.

(** [float] of a string of digits is the float nearest to the integer
    they write. *)
Lemma float_of_digits (s : string) :
  all_digits s = true -> s <> EmptyString ->
  Py.float s = Ok (Py.float_of_Z (digits_value s)).
Proof.
  intros Hs Hne. unfold Py.float. rewrite (strip_digits s Hs).
  destruct s as [|c s]; [congruence|].
  cbn [all_digits list_ascii_of_string] in Hs |- *.
  destruct (Py.digit_of c) as [d|] eqn:Hd; [|discriminate].
  destruct (digit_char c d Hd) as [_ [Hlow [Hi [Hn [Hminus [Hplus Hd0]]]]]].
  assert (Py.sign_of (c :: list_ascii_of_string s)
          = (false, c :: list_ascii_of_string s)) as ->.
  { revert Hminus Hplus.
    destruct c as [[|] [|] [|] [|] [|] [|] [|] [|]]; simpl;
      try discriminate; reflexivity. }
  cbn [map string_of_list_ascii]. rewrite Hlow.
  cbn [String.eqb]. rewrite Hi, Hn. cbn [orb].
  unfold Py.number_of, Py.digitpart. rewrite Hd.
  destruct (digit_run_digits s (10 * 0 + d) (0 + 1) Hs) as [cnt' ->].
  cbn [Py.exponent_of]. f_equal.
  unfold digits_value. cbn [digits_value_from]. rewrite Hd.
  change (0 - 0) with 0. apply float_of_decimal_integer.
  apply digits_value_from_nonneg. lia.
Qed.

End Digits.

(** C7: for a file name [prefix.prefix.<number>], whatever the number of
    segments before the last one, the filename parser returns [<number>]
    read as a float: the result of [float] on the final segment, which for
    a number written in decimal digits is the float nearest to it. *)
Theorem extract_numeric_part_final_segment :
  forall (prefixes : list string) (number : string),
    Py.contains "." number = false ->
    extract_numeric_part (String.concat "." (prefixes ++ [number]))
    = Py.float number /\
    (all_digits number = true -> number <> EmptyString ->
     extract_numeric_part (String.concat "." (prefixes ++ [number]))
     = Ok (Py.float_of_Z (digits_value number))).
Proof.
  intros prefixes number Hnum.
  assert (extract_numeric_part (String.concat "." (prefixes ++ [number]))
          = Py.float number) as Hlast.
  { induction prefixes as [|p prefixes IH]; simpl.
    - now apply extract_numeric_part_segment.
    - destruct (prefixes ++ [number]) eqn:Hrest.
      + destruct prefixes; discriminate.
      + change (extract_numeric_part
                  (p ++ String "." (String.concat "." (s :: l)))%string
                = Py.float number).
        rewrite extract_numeric_part_app. exact IH. }
  split; [exact Hlast|].
  intros Hdigits Hne. rewrite Hlast. now apply float_of_digits.
Qed.

Lemma extract_numeric_part_final_segment_witness :
  extract_numeric_part (String.concat "." (["run"; "v2"] ++ ["100"]))
  = Py.float "100" /\
  (all_digits "100" = true -> "100" <> EmptyString ->
   extract_numeric_part (String.concat "." (["run"; "v2"] ++ ["100"]))
   = Ok (Py.float_of_Z (digits_value "100"))).
Proof.
  apply (extract_numeric_part_final_segment ["run"; "v2"] "100"). reflexivity.
Defined.

(** The same on examples: the last segment alone counts. *)
Example extract_numeric_part_examples :
  extract_numeric_part "run.100" = Ok 100%float /\
  extract_numeric_part "jsbsim.out.v2.250" = Ok 250%float /\
  extract_numeric_part "run.2.5" = Ok 5%float /\
  extract_numeric_part "run.1e3" = Ok 1000%float /\
  extract_numeric_part "run.nan" = Ok nan /\
  extract_numeric_part "data"
  = Raise (ValueError "could not convert string to float: 'data'").
Proof. vm_compute. repeat split. Qed.

(** ** The folder scan *)

Section Scan.

Variable E : env.
Variable folder_path : string.


Lemma dict_set_keys {V} (k k0 : string) (v : V) (d : dict V) :
  In k0 (map fst d) -> In k0 (map fst (dict_set k v d)).
Proof.
  induction d as [|[k' v'] d IH]; simpl; [contradiction|].
  destruct (String.eqb k' k); simpl; tauto.
Qed.

Lemma dict_set_key {V} (k : string) (v : V) (d : dict V) :
  In k (map fst (dict_set k v d)).
Proof.
  induction d as [|[k' v'] d IH]; simpl; [now left|].
  destruct (String.eqb_spec k' k) as [->|Hne]; simpl; tauto.
Qed.


Lemma scan_file_value (filename : string) (v : cell) (data : dict cell) :
  file_value E folder_path filename v ->
  scan_file E folder_path filename data
  = ret (dict_set (Py.splitext_root filename) v data).
Proof.
  intros [Hcsv [df [Hread [Hcols Hlast]]]].
  unfold scan_file. rewrite Hcsv, Hread.
  apply Nat.ltb_lt in Hcols. now rewrite Hcols, Hlast.
Qed.


(** The loop body never raises. *)
Lemma scan_file_returns (filename : string) (data : dict cell) :
  exists data', outcome (scan_file E folder_path filename data) = Ok data'.
Proof.
  unfold scan_file.
  destruct (Py.endswith filename ".csv"); [|simpl; eauto].
  destruct (read_csv E (Py.path_join folder_path filename)) as [df|e];
    [|simpl; eauto].
  destruct (1 <? shape1 df)%nat; [|simpl; eauto].
  destruct (iloc_last df 1); simpl; eauto.
Qed.

Lemma scan_returns (names : list string) (data : dict cell) :
  exists data', outcome (scan E folder_path names data) = Ok data'.
Proof.
  revert data. induction names as [|filename names IH]; intros data; simpl.
  - eauto.
  - destruct (scan_file_returns filename data) as [data1 H1].
    rewrite (bind_ok _ _ _ H1). simpl. apply IH.
Qed.


(** Keys only accumulate during the scan. *)
Lemma scan_file_keeps_keys (filename k : string) (data data' : dict cell) :
  outcome (scan_file E folder_path filename data) = Ok data' ->
  In k (map fst data) -> In k (map fst data').
Proof.
  unfold scan_file.
  destruct (Py.endswith filename ".csv"); [|simpl; congruence].
  destruct (read_csv E (Py.path_join folder_path filename)) as [df|e];
    [|simpl; congruence].
  destruct (1 <? shape1 df)%nat; [|simpl; congruence].
  destruct (iloc_last df 1); simpl; intros Hd; inversion Hd; subst;
    [apply dict_set_keys | trivial].
Qed.

Lemma scan_keeps_keys (names : list string) (k : string)
  (data data' : dict cell) :
  outcome (scan E folder_path names data) = Ok data' ->
  In k (map fst data) -> In k (map fst data').
Proof.
  revert data. induction names as [|filename names IH]; intros data; simpl.
  - intros Hd; inversion Hd; now subst.
  - destruct (scan_file_returns filename data) as [data1 H1].
    rewrite (bind_ok _ _ _ H1). simpl. intros Hd Hk.
    apply (IH data1 Hd). now apply (scan_file_keeps_keys filename k data).
Qed.


End Scan.



(** ** Columns computed from the scanned rows *)


Lemma mapM_raises {A B} (f : A -> result B) (l : list A) (a : A) (e : exn) :
  In a l -> f a = Raise e -> exists e', mapM f l = Raise e'.
Proof.
  intros Hin Hfa. induction l as [|a' l IH]; [contradiction|]. simpl.
  destruct (f a') as [b|e1] eqn:Hfa'; [|eauto].
  destruct Hin as [->|Hin]; [congruence|].
  destruct (IH Hin) as [e' ->]. eauto.
Qed.

Lemma cell_mul_number (factor : float) (c : cell) (d : float) :
  cell_mul factor c = Ok d ->
  exists m, cell_number c = Some m /\ d = (m * factor)%float.
Proof.
  unfold cell_mul. destruct (cell_number c) as [m|]; [|discriminate].
  intros H. inversion H. eauto.
Qed.




(** ** The loop over the folders *)

Section Folders.

Variable E : env.

Lemma dict_set_in {V} (k k0 : string) (v v0 : V) (d : dict V) :
  In (k, v) (dict_set k0 v0 d) -> (k, v) = (k0, v0) \/ In (k, v) d.
Proof.
  induction d as [|[k' v'] d IH]; simpl.
  - intros [H|[]]. now left.
  - destruct (String.eqb_spec k' k0) as [->|Hne]; simpl.
    + intros [H|H]; [now left | right; now right].
    + intros [H|H]; [right; now left | destruct (IH H); auto].
Qed.





End Folders.

(** ** What the folder loop prints *)

Section Diagnostics.

Variable E : env.

Lemma scan_file_diagnostics folder_path filename data ev :
  In ev (trace (scan_file E folder_path filename data)) ->
  is_diagnostic ev = true.
Proof.
  unfold scan_file.
  destruct (Py.endswith filename ".csv"); [|intros []].
  destruct (read_csv E (Py.path_join folder_path filename)) as [df|e];
    [|intros [<-|[]]; reflexivity].
  destruct (1 <? shape1 df)%nat; [|intros [<-|[]]; reflexivity].
  destruct (iloc_last df 1); [intros [] | intros [<-|[]]; reflexivity].
Qed.

Lemma scan_diagnostics folder_path names data ev :
  In ev (trace (scan E folder_path names data)) -> is_diagnostic ev = true.
Proof.
  revert data. induction names as [|filename names IH]; intros data.
  - intros [].
  - cbn [scan]. intros H. apply in_trace_bind in H as [H|[d [_ H]]].
    + now apply scan_file_diagnostics in H.
    + now apply IH in H.
Qed.

Lemma process_folder_diagnostics folder_path all_data ev :
  In ev (trace (process_folder E folder_path all_data)) ->
  is_diagnostic ev = true.
Proof.
  unfold process_folder. intros H.
  apply in_trace_bind in H as [[]|[names [_ H]]].
  apply in_trace_bind in H as [H|[data [_ H]]].
  { now apply scan_diagnostics in H. }
  destruct (frame_empty data).
  - apply in_trace_bind in H as [[<-|[]]|[? [_ []]]]. reflexivity.
  - apply in_trace_bind in H as [[]|[df [_ H]]].
    apply in_trace_bind in H as [[<-|[]]|[? [_ []]]]. reflexivity.
Qed.

Lemma process_folders_diagnostics paths all_data ev :
  In ev (trace (process_folders E paths all_data)) -> is_diagnostic ev = true.
Proof.
  revert all_data. induction paths as [|p paths IH]; intros all_data.
  - intros [].
  - cbn [process_folders]. intros H.
    apply in_trace_bind in H as [H|[d [_ H]]].
    + now apply process_folder_diagnostics in H.
    + now apply IH in H.
Qed.

Lemma process_csv_folders_diagnostics paths ev :
  In ev (trace (process_csv_folders E paths)) -> is_diagnostic ev = true.
Proof. apply process_folders_diagnostics. Qed.

End Diagnostics.

(** ** The inner join *)

Section Merge.

Lemma has_key_of_folder_table (df : folder_table) (k : float) :
  has_key m_NumericPart (of_folder_table df) k <-> has_key NumericPart df k.
Proof.
  unfold has_key, of_folder_table. split.
  - intros [r [Hin Hk]]. apply in_map_iff in Hin as [r0 [<- Hin]]. eauto.
  - intros [r [Hin Hk]].
    exists (MRow (NumericPart r) [part_of_row "" r]). split; [|exact Hk].
    apply in_map_iff. eauto.
Qed.

Lemma in_pd_merge (left : merged_table) (right : folder_table)
  (suffix : string) (row : merged_row) :
  In row (pd_merge left right suffix) <->
  exists l r, In l left /\ In r right /\
              key_eqb (m_NumericPart l) (NumericPart r) = true /\
              row = MRow (m_NumericPart l) (m_parts l ++ [part_of_row suffix r]).
Proof.
  unfold pd_merge. rewrite in_flat_map. split.
  - intros [l [Hl Hrow]]. apply in_map_iff in Hrow as [r [<- Hr]].
    apply filter_In in Hr as [Hr Hk]. exists l, r. auto.
  - intros [l [r [Hl [Hr [Hk ->]]]]]. exists l. split; [exact Hl|].
    apply in_map_iff. exists r. split; [reflexivity|].
    apply filter_In. auto.
Qed.

(** A key is in the join exactly when it is on both sides. *)
Lemma has_key_pd_merge (left : merged_table) (right : folder_table)
  (suffix : string) (k : float) :
  has_key m_NumericPart (pd_merge left right suffix) k <->
  has_key m_NumericPart left k /\ has_key NumericPart right k.
Proof.
  unfold has_key. split.
  - intros [row [Hin Hk]].
    apply in_pd_merge in Hin as [l [r [Hl [Hr [Hlr ->]]]]]. simpl in Hk.
    split; [now exists l|]. exists r. split; [exact Hr|].
    apply key_eqb_trans with (m_NumericPart l); [|exact Hk].
    now rewrite key_eqb_sym.
  - intros [[l [Hl Hlk]] [r [Hr Hrk]]].
    exists (MRow (m_NumericPart l) (m_parts l ++ [part_of_row suffix r])).
    split; [|exact Hlk].
    apply in_pd_merge. exists l, r. repeat split; trivial.
    apply key_eqb_trans with k; [exact Hlk | now rewrite key_eqb_sym].
Qed.


Lemma merge_loop_keys (m m' : merged_table) (items : dict folder_table)
  (k : float) :
  merge_loop (Some m) items = Some m' ->
  (has_key m_NumericPart m' k <->
   has_key m_NumericPart m k /\
   forall folder df, In (folder, df) items -> has_key NumericPart df k).
Proof.
  revert m. induction items as [|[folder df] items IH]; intros m; simpl.
  - intros H; inversion H; subst. split; [intros H'; split; tauto | tauto].
  - intros H. rewrite (IH _ H), has_key_pd_merge. split.
    + intros [[Hm Hdf] Hrest]. split; [exact Hm|].
      intros f d [Heq|Hin]; [inversion Heq; now subst | eauto].
    + intros [Hm Hall]. split; [split|]; eauto.
Qed.

Lemma merge_loop_none_keys (merged : merged_table) (items : dict folder_table)
  (k : float) :
  merge_loop None items = Some merged ->
  (has_key m_NumericPart merged k <->
   forall folder df, In (folder, df) items -> has_key NumericPart df k).
Proof.
  destruct items as [|[folder df] items]; simpl; [discriminate|].
  intros H. rewrite (merge_loop_keys _ _ _ _ H), has_key_of_folder_table.
  split.
  - intros [Hdf Hrest] f d [Heq|Hin]; [inversion Heq; now subst | eauto].
  - intros Hall. split; eauto.
Qed.


Lemma pd_merge_disjoint (left : merged_table) (right : folder_table)
  (suffix : string) :
  (forall l r, In l left -> In r right ->
               key_eqb (m_NumericPart l) (NumericPart r) = false) ->
  pd_merge left right suffix = [].
Proof.
  intros Hdis. destruct (pd_merge left right suffix) as [|row rows] eqn:Hm;
    [reflexivity|].
  assert (In row (pd_merge left right suffix)) as Hin by (rewrite Hm; now left).
  apply in_pd_merge in Hin as [l [r [Hl [Hr [Hk _]]]]].
  rewrite (Hdis l r Hl Hr) in Hk. discriminate.
Qed.

Lemma filter_none {A} (f : A -> bool) (l : list A) :
  Forall (fun a => f a = false) l -> filter f l = [].
Proof.
  induction 1 as [|a l Ha _ IH]; simpl; [reflexivity|]. now rewrite Ha.
Qed.

(** With unique keys, a key matches one row at most, and a key of the
    table matches one row at least. *)
Lemma filter_unique_key {A} (key : A -> float) (rows : list A) (k : float) :
  unique_keys key rows ->
  (List.length (filter (fun r => key_eqb (key r) k) rows) <= 1)%nat.
Proof.
  induction 1 as [|r rows Hr _ IH]; simpl; [lia|].
  destruct (key_eqb (key r) k) eqn:Hk; [|exact IH].
  simpl. rewrite filter_none; [simpl; lia|].
  rewrite Forall_forall in Hr |- *. intros r' Hr'.
  rewrite key_eqb_sym, <- (key_eqb_congr _ _ (key r') Hk). now apply Hr.
Qed.

Lemma filter_has_key {A} (key : A -> float) (rows : list A) (k : float) :
  has_key key rows k ->
  (1 <= List.length (filter (fun r => key_eqb (key r) k) rows))%nat.
Proof.
  intros [r [Hr Hk]].
  assert (In r (filter (fun r => key_eqb (key r) k) rows)) as Hin.
  { apply filter_In. now split. }
  destruct (filter _ rows); [contradiction | simpl; lia].
Qed.

Lemma length_flat_map_one_each {A B} (f : A -> list B) (l : list A) :
  (forall a, In a l -> List.length (f a) = 1%nat) ->
  List.length (flat_map f l) = List.length l.
Proof.
  induction l as [|a l IH]; intros H; [reflexivity|].
  simpl. rewrite length_app, IH, (H a).
  - reflexivity.
  - now left.
  - intros a' Ha'. apply H. now right.
Qed.

Lemma flat_map_step {A B} (f : A -> list B) (a : A) (l : list A) :
  flat_map f (a :: l) = f a ++ flat_map f l.
Proof. reflexivity. Qed.

(** Counting the matching pairs by left row, or by right row. *)
Lemma count_pairs_cons {A B} (p : A -> B -> bool) (a : A) (la : list A)
  (lb : list B) :
  List.length (flat_map (fun b => filter (fun a' => p a' b) (a :: la)) lb)
  = (List.length (filter (p a) lb)
     + List.length (flat_map (fun b => filter (fun a' => p a' b) la) lb))%nat.
Proof.
  induction lb as [|b lb IH]; [reflexivity|].
  rewrite !flat_map_step, !length_app, IH. cbn [filter].
  destruct (p a b); simpl; lia.
Qed.

Lemma count_pairs_swap {A B} (p : A -> B -> bool) (la : list A) (lb : list B) :
  List.length (flat_map (fun a => filter (p a) lb) la)
  = List.length (flat_map (fun b => filter (fun a => p a b) la) lb).
Proof.
  induction la as [|a la IH].
  - simpl. induction lb as [|b lb IHb]; simpl; auto.
  - rewrite count_pairs_cons, <- IH. simpl. now rewrite length_app.
Qed.

Lemma length_pd_merge (left : merged_table) (right : folder_table)
  (suffix : string) :
  List.length (pd_merge left right suffix)
  = List.length
      (flat_map
         (fun l => filter (fun r => key_eqb (m_NumericPart l) (NumericPart r))
                     right) left).
Proof.
  unfold pd_merge. induction left as [|l left IH]; [reflexivity|].
  simpl. now rewrite !length_app, length_map, IH.
Qed.

(** One merged row per left row when every left key is a right key and
    the right keys are unique. *)
Lemma length_pd_merge_left (left : merged_table) (right : folder_table)
  (suffix : string) :
  unique_keys NumericPart right ->
  (forall l, In l left -> has_key NumericPart right (m_NumericPart l)) ->
  List.length (pd_merge left right suffix) = List.length left.
Proof.
  intros Huniq Hkeys. rewrite length_pd_merge.
  apply length_flat_map_one_each. intros l Hl.
  rewrite (filter_ext _ (fun r => key_eqb (NumericPart r) (m_NumericPart l)))
    by (intros r; apply key_eqb_sym).
  pose proof (filter_unique_key NumericPart right (m_NumericPart l) Huniq).
  pose proof (filter_has_key NumericPart right (m_NumericPart l) (Hkeys l Hl)).
  lia.
Qed.

(** One merged row per right row when every right key is a left key and
    the left keys are unique. *)
Lemma length_pd_merge_right (left : merged_table) (right : folder_table)
  (suffix : string) :
  unique_keys m_NumericPart left ->
  (forall r, In r right -> has_key m_NumericPart left (NumericPart r)) ->
  List.length (pd_merge left right suffix) = List.length right.
Proof.
  intros Huniq Hkeys. rewrite length_pd_merge, count_pairs_swap.
  apply length_flat_map_one_each. intros r Hr.
  pose proof (filter_unique_key m_NumericPart left (NumericPart r) Huniq).
  pose proof (filter_has_key m_NumericPart left (NumericPart r) (Hkeys r Hr)).
  lia.
Qed.

Lemma unique_keys_of_folder_table (df : folder_table) :
  unique_keys NumericPart df -> unique_keys m_NumericPart (of_folder_table df).
Proof.
  induction 1 as [|r df Hr _ IH]; simpl; constructor; [|exact IH].
  rewrite Forall_forall in Hr |- *. intros l Hl.
  apply in_map_iff in Hl as [r' [<- Hr']]. simpl. auto.
Qed.

Lemma has_key_self {A} (key : A -> float) (rows : list A) (r : A) :
  In r rows -> has_key key rows (key r).
Proof. intros Hr. exists r. split; [exact Hr | apply key_eqb_refl]. Qed.

End Merge.

(** C2: the merger is an inner join on the converted key.  A key is in
    the merged table exactly when it is in the table of every folder;
    two tables without a common key merge into the empty table; two
    tables with the same keys, unique in each, merge into one row per
    key. *)
Theorem merge_is_inner_join :
  (forall (items : dict folder_table) (merged : merged_table) (k : float),
      merge_loop None items = Some merged ->
      (has_key m_NumericPart merged k <->
       forall folder df, In (folder, df) items -> has_key NumericPart df k))
  /\
  (forall (fa fb : string) (a b : folder_table),
      (forall ra rb, In ra a -> In rb b ->
                     key_eqb (NumericPart ra) (NumericPart rb) = false) ->
      merge_loop None [(fa, a); (fb, b)] = Some [])
  /\
  (forall (fa fb : string) (a b : folder_table),
      unique_keys NumericPart a ->
      unique_keys NumericPart b ->
      (forall k, has_key NumericPart a k <-> has_key NumericPart b k) ->
      exists merged,
        merge_loop None [(fa, a); (fb, b)] = Some merged /\
        List.length merged = List.length a /\
        List.length merged = List.length b).
Proof.
  split; [|split].
  - intros items merged k. apply merge_loop_none_keys.
  - intros fa fb a b Hdis. simpl. f_equal. apply pd_merge_disjoint.
    intros l r Hl Hr. apply in_map_iff in Hl as [ra [<- Hra]]. simpl. auto.
  - intros fa fb a b Ha Hb Hsame. simpl. eexists. split; [reflexivity|]. split.
    + rewrite length_pd_merge_left; [apply length_map | exact Hb |].
      intros l Hl. apply in_map_iff in Hl as [ra [<- Hra]]. simpl.
      apply Hsame. now apply has_key_self.
    + apply length_pd_merge_right.
      * now apply unique_keys_of_folder_table.
      * intros r Hr. apply has_key_of_folder_table, Hsame.
        now apply has_key_self.
Qed.

(** ** Sorting by key *)

Section Sorting.

Context {A : Type} (key : A -> float).

Lemma insert_by_perm (a : A) (l : list A) :
  Permutation (insert_by key a l) (a :: l).
Proof.
  induction l as [|b l IH]; simpl; [reflexivity|].
  destruct (key_leb (key a) (key b)); [reflexivity|].
  rewrite IH. apply perm_swap.
Qed.

(** Sorting keeps the rows. *)
Lemma sort_values_perm (l : list A) : Permutation (sort_values key l) l.
Proof.
  induction l as [|a l IH]; simpl; [reflexivity|].
  rewrite insert_by_perm. now constructor.
Qed.

Lemma insert_by_sorted (a : A) (l : list A) :
  Sorted (key_le key) l -> Sorted (key_le key) (insert_by key a l).
Proof.
  induction 1 as [|b l Hl IH Hb]; simpl.
  - repeat constructor.
  - destruct (key_leb (key a) (key b)) eqn:Hab.
    + constructor; [now constructor | now constructor].
    + constructor; [exact IH|].
      apply key_leb_total in Hab.
      destruct Hb as [|c l' Hbc]; simpl.
      * now constructor.
      * destruct (key_leb (key a) (key c)); now constructor.
Qed.

Lemma sort_values_sorted (l : list A) :
  Sorted (key_le key) (sort_values key l).
Proof.
  induction l as [|a l IH]; simpl; [constructor | now apply insert_by_sorted].
Qed.

(** The sorted table is ascending in its key. *)
Lemma sort_values_ascending (l : list A) : ascending key (sort_values key l).
Proof.
  apply Sorted_StronglySorted; [|apply sort_values_sorted].
  intros x y z. apply key_leb_trans.
Qed.

Lemma ascending_map (l : list A) :
  ascending key l -> ascending (fun x : float => x) (map key l).
Proof.
  unfold ascending. induction 1 as [|a l Hl IH Ha]; simpl; constructor;
    [exact IH|].
  rewrite Forall_forall in Ha |- *. intros k Hk.
  apply in_map_iff in Hk as [r [<- Hr]]. exact (Ha r Hr).
Qed.

End Sorting.

(** ** The run: process, merge, export, plot *)

Section RunFacts.

Variable E : env.

Lemma plot_folder_events folder df ev :
  In ev (trace (plot_folder E folder df)) ->
  let rows := sort_values NumericPart df in
  (exists label x y, ev = Plot label x y) \/
  (exists label,
      ev = Scatter label (map NumericPart rows) (map Potencia_necesaria rows)).
Proof.
  unfold plot_folder. intros H.
  apply in_trace_bind in H as [[]|[f [_ H]]].
  apply in_trace_bind in H as [[<-|[]]|[? [_ [<-|[]]]]]; simpl; eauto.
Qed.

Lemma plot_loop_events items ev :
  In ev (trace (plot_loop E items)) ->
  (exists label x y, ev = Plot label x y) \/
  (exists label folder df,
      In (folder, df) items /\
      ev = Scatter label
             (map NumericPart (sort_values NumericPart df))
             (map Potencia_necesaria (sort_values NumericPart df))).
Proof.
  induction items as [|[folder df] items IH]; [intros []|].
  cbn [plot_loop]. intros H. apply in_trace_bind in H as [H|[? [_ H]]].
  - apply plot_folder_events in H as [H|[label ->]]; [now left|].
    right. exists label, folder, df. split; [now left | reflexivity].
  - destruct (IH H) as [Hp|[label [f [d [Hin ->]]]]]; [now left|].
    right. exists label, f, d. split; [now right | reflexivity].
Qed.



Lemma draw_events all_dfs graph_file ev :
  In ev (trace (draw E all_dfs graph_file)) ->
  is_export ev = false /\
  forall label x y, ev = Scatter label x y ->
    exists folder df,
      In (folder, df) all_dfs /\
      x = map NumericPart (sort_values NumericPart df) /\
      y = map Potencia_necesaria (sort_values NumericPart df).
Proof.
  unfold draw. intros H.
  apply in_trace_bind in H as [[<-|[]]|[? [_ H]]].
  { split; [reflexivity | discriminate]. }
  apply in_trace_bind in H as [H|[? [_ H]]].
  { apply plot_loop_events in H as [[l [x0 [y0 ->]]]|[l [f [d [Hin ->]]]]].
    - split; [reflexivity | discriminate].
    - split; [reflexivity|]. intros label xs ys Heq. inversion Heq; subst.
      eauto. }
  apply in_trace_bind in H as [[<-|[]]|[? [_ H]]].
  { split; [reflexivity | discriminate]. }
  apply in_trace_bind in H as [[<-|[]]|[? [_ H]]].
  { split; [reflexivity | discriminate]. }
  apply in_trace_bind in H as [[<-|[]]|[? [_ [<-|[]]]]];
    (split; [reflexivity | discriminate]).
Qed.

(** The run after a successful folder loop whose merge has rows: the
    spreadsheet, its message, then the drawing. *)
Lemma plot_data_export paths out graph all_dfs merged :
  outcome (process_csv_folders E paths) = Ok all_dfs ->
  merge_loop None all_dfs = Some merged ->
  merged <> [] ->
  plot_data E paths out graph
  = (trace (process_csv_folders E paths)
       ++ ToExcel out (sort_values m_NumericPart merged)
       :: Print ("Output file '" ++ out ++ "' generated successfully.")
       :: trace (draw E all_dfs graph),
     outcome (draw E all_dfs graph)).
Proof.
  intros Hp Hm Hne. unfold plot_data. rewrite (bind_ok _ _ _ Hp).
  unfold merge_export_plot. rewrite Hm.
  destruct merged as [|r merged]; [congruence|]. cbn [frame_empty].
  unfold export_and_plot.
  change (emit ?ev) with ([ev], Ok tt).
  rewrite (bind_ok ([_], Ok tt) _ tt eq_refl).
  unfold print. change (emit ?ev) with ([ev], Ok tt).
  rewrite (bind_ok ([_], Ok tt) _ tt eq_refl). reflexivity.
Qed.

(** The run after a successful folder loop whose merge has no rows. *)
Lemma plot_data_no_rows paths out graph all_dfs :
  outcome (process_csv_folders E paths) = Ok all_dfs ->
  merge_loop None all_dfs = None \/ merge_loop None all_dfs = Some [] ->
  plot_data E paths out graph
  = (trace (process_csv_folders E paths) ++ [Print no_merged_data], Ok tt).
Proof.
  intros Hp Hm. unfold plot_data. rewrite (bind_ok _ _ _ Hp).
  unfold merge_export_plot. destruct Hm as [-> | ->]; reflexivity.
Qed.

(** The run when the folder loop raises. *)
Lemma plot_data_raises paths out graph e :
  outcome (process_csv_folders E paths) = Raise e ->
  plot_data E paths out graph = (trace (process_csv_folders E paths), Raise e).
Proof. intros Hp. unfold plot_data. now rewrite (bind_raise _ _ _ Hp). Qed.

End RunFacts.

(** ** Properties of the run *)



(** *** A file name that ends in no number *)

Section BadName.

Variable E : env.

Lemma scan_file_adds_key folder_path filename v data data' :
  file_value E folder_path filename v ->
  outcome (scan_file E folder_path filename data) = Ok data' ->
  In (Py.splitext_root filename) (map fst data').
Proof.
  intros Hv. rewrite (scan_file_value E folder_path filename v data Hv).
  simpl. intros H; inversion H. apply dict_set_key.
Qed.

Lemma scan_adds_key folder_path names filename v data data' :
  In filename names ->
  file_value E folder_path filename v ->
  outcome (scan E folder_path names data) = Ok data' ->
  In (Py.splitext_root filename) (map fst data').
Proof.
  intros Hin Hv. revert data.
  induction names as [|f names IH]; intros data; [contradiction|].
  cbn [scan].
  destruct (scan_file_returns E folder_path f data) as [data1 H1].
  rewrite (bind_ok _ _ _ H1). simpl outcome. intros Hd.
  destruct Hin as [->|Hin]; [|now apply (IH Hin data1)].
  apply (scan_keeps_keys E folder_path names _ data1 data' Hd).
  now apply (scan_file_adds_key folder_path filename v data).
Qed.

Lemma convert_raises data name e :
  In name (map fst data) ->
  extract_numeric_part name = Raise e ->
  exists e', convert data = Raise e'.
Proof.
  intros Hin Hraise. unfold convert.
  destruct (mapM_raises extract_numeric_part _ name e Hin Hraise) as [e' ->].
  eauto.
Qed.

Lemma process_folder_raises folder names filename v e all_data :
  listdir E folder = Ok names ->
  In filename names ->
  file_value E folder filename v ->
  extract_numeric_part (Py.splitext_root filename) = Raise e ->
  exists e', outcome (process_folder E folder all_data) = Raise e'.
Proof.
  intros Hdir Hin Hv Hraise. unfold process_folder. rewrite Hdir.
  change (lift (Ok names)) with (ret names). rewrite bind_ret_l.
  destruct (scan_returns E folder names []) as [data Hdata].
  rewrite (bind_ok _ _ _ Hdata). simpl outcome.
  pose proof (scan_adds_key folder names filename v [] data Hin Hv Hdata) as Hkey.
  destruct (convert_raises data _ e Hkey Hraise) as [e' He'].
  destruct data as [|kv data]; [contradiction|]. cbn [frame_empty].
  rewrite He'. simpl. eauto.
Qed.

Lemma process_folders_raises paths folder names filename v e all_data :
  In folder paths ->
  listdir E folder = Ok names ->
  In filename names ->
  file_value E folder filename v ->
  extract_numeric_part (Py.splitext_root filename) = Raise e ->
  exists e', outcome (process_folders E paths all_data) = Raise e'.
Proof.
  intros Hfolder Hdir Hin Hv Hraise. revert all_data.
  induction paths as [|p paths IH]; intros all_data; [contradiction|].
  cbn [process_folders].
  destruct (outcome_cases (outcome (process_folder E p all_data)))
    as [[d1 H1]|[e1 He1]].
  - rewrite (bind_ok _ _ _ H1). simpl outcome.
    destruct Hfolder as [->|Hfolder]; [|now apply IH].
    destruct (process_folder_raises folder names filename v e all_data
                Hdir Hin Hv Hraise) as [e' He'].
    congruence.
  - rewrite (bind_raise _ _ _ He1). simpl. eauto.
Qed.

End BadName.

(** What the script does with a CSV file that is read into the table of
    its folder and whose base name does not end in a number: the parsing
    error of line 57 is outside the [try] of the scan and is not caught.
    The folder loop raises, and the run raises with it after printing
    diagnostics only, without spreadsheet and without image. *)
Lemma bad_file_name_aborts_run :
  forall (E : env) (paths : list string) (out graph : string)
         (folder : string) (names : list string) (filename : string)
         (v : cell) (e : exn),
    In folder paths ->
    listdir E folder = Ok names ->
    In filename names ->
    file_value E folder filename v ->
    extract_numeric_part (Py.splitext_root filename) = Raise e ->
    exists e',
      outcome (process_csv_folders E paths) = Raise e' /\
      outcome (plot_data E paths out graph) = Raise e' /\
      forall ev, In ev (trace (plot_data E paths out graph)) ->
                 is_diagnostic ev = true.
Proof.
  intros E paths out graph folder names filename v e
         Hfolder Hdir Hin Hv Hraise.
  destruct (process_folders_raises E paths folder names filename v e []
              Hfolder Hdir Hin Hv Hraise) as [e' He'].
  exists e'. split; [exact He'|].
  rewrite (plot_data_raises E paths out graph e' He'). split; [reflexivity|].
  intros ev Hev. now apply (process_csv_folders_diagnostics E paths).
Qed.

Lemma bad_file_name_aborts_run_example :
  exists e',
    outcome (process_csv_folders named_data ["A"]) = Raise e' /\
    outcome (plot_data named_data ["A"] "out.xlsx" "out.png") = Raise e' /\
    forall ev, In ev (trace (plot_data named_data ["A"] "out.xlsx" "out.png")) ->
               is_diagnostic ev = true.
Proof.
  apply (bad_file_name_aborts_run named_data ["A"] "out.xlsx" "out.png"
           "A" ["data.csv"; "run.100.csv"] "data.csv" (CInt 50)
           (Py.not_a_float "data")).
  - left. reflexivity.
  - reflexivity.
  - left. reflexivity.
  - split; [reflexivity|]. exists (two_columns (CInt 50)).
    split; [reflexivity|]. split; [|reflexivity]. simpl. lia.
  - vm_compute. reflexivity.
Defined.

(** C3: a file whose base name ends in no number is to be left out while
    the rest of the folder and of the run goes on.  The script does not do
    so: with [data.csv] beside [run.100.csv] in folder A, no table comes
    out of the folder loop, and the run ends with the [ValueError] of
    [float('data')] before anything is printed or written. *)
Theorem bad_file_name_not_skipped :
  outcome (process_csv_folders named_data ["A"])
  = Raise (ValueError "could not convert string to float: 'data'")
  /\ ~ (exists all_dfs,
          outcome (process_csv_folders named_data ["A"]) = Ok all_dfs)
  /\ plot_data named_data ["A"] "out.xlsx" "out.png"
     = ([], Raise (ValueError "could not convert string to float: 'data'")).
Proof.
  split; [|split].
  - vm_compute. reflexivity.
  - intros [all_dfs H]. vm_compute in H. discriminate.
  - vm_compute. reflexivity.
Qed.



(** C8: in a run that writes the spreadsheet, the table written holds the
    rows of the merged table in ascending order of the key; and the rows
    of every folder are in ascending order of the key when they are
    plotted. *)
Theorem export_and_plot_sorted :
  forall (E : env) (paths : list string) (out graph : string),
    (forall path table,
        In (ToExcel path table) (trace (plot_data E paths out graph)) ->
        ascending m_NumericPart table /\
        exists all_dfs merged,
          outcome (process_csv_folders E paths) = Ok all_dfs /\
          merge_loop None all_dfs = Some merged /\
          Permutation table merged) /\
    (forall label x y,
        In (Scatter label x y) (trace (plot_data E paths out graph)) ->
        ascending (fun k : float => k) x /\
        exists all_dfs folder df,
          outcome (process_csv_folders E paths) = Ok all_dfs /\
          In (folder, df) all_dfs /\
          Permutation x (map NumericPart df)).
Proof.
  intros E paths out graph.
  assert (forall ev,
             In ev (trace (plot_data E paths out graph)) ->
             is_diagnostic ev = false ->
             exists all_dfs merged,
               outcome (process_csv_folders E paths) = Ok all_dfs /\
               merge_loop None all_dfs = Some merged /\
               (ev = ToExcel out (sort_values m_NumericPart merged) \/
                In ev (trace (draw E all_dfs graph)))) as Hrun.
  { intros ev Hev Hnd.
    destruct (outcome_cases (outcome (process_csv_folders E paths)))
      as [[all_dfs Hp]|[e He]].
    2:{ rewrite (plot_data_raises E paths out graph e He) in Hev.
        apply process_csv_folders_diagnostics in Hev. congruence. }
    destruct (merge_loop None all_dfs) as [[|r merged]|] eqn:Hm.
    - rewrite (plot_data_no_rows E paths out graph all_dfs Hp (or_intror Hm))
        in Hev.
      apply in_app_iff in Hev as [Hev|[<-|[]]]; [|discriminate].
      apply process_csv_folders_diagnostics in Hev. congruence.
    - rewrite (plot_data_export E paths out graph all_dfs (r :: merged) Hp Hm)
        in Hev by discriminate.
      apply in_app_iff in Hev as [Hev|[<-|[<-|Hev]]].
      + apply process_csv_folders_diagnostics in Hev. congruence.
      + exists all_dfs, (r :: merged). auto.
      + discriminate.
      + exists all_dfs, (r :: merged). auto.
    - rewrite (plot_data_no_rows E paths out graph all_dfs Hp (or_introl Hm))
        in Hev.
      apply in_app_iff in Hev as [Hev|[<-|[]]]; [|discriminate].
      apply process_csv_folders_diagnostics in Hev. congruence. }
  split.
  - intros path table Hev.
    destruct (Hrun _ Hev eq_refl) as [all_dfs [merged [Hp [Hm [Heq|Hd]]]]].
    + inversion Heq; subst. split; [apply sort_values_ascending|].
      exists all_dfs, merged. repeat split; trivial. apply sort_values_perm.
    + apply draw_events in Hd as [Hd _]. discriminate.
  - intros label x y Hev.
    destruct (Hrun _ Hev eq_refl) as [all_dfs [merged [Hp [Hm [Heq|Hd]]]]];
      [discriminate|].
    apply draw_events in Hd as [_ Hd].
    destruct (Hd label x y eq_refl) as [folder [df [Hin [-> _]]]].
    split; [apply ascending_map, sort_values_ascending|].
    exists all_dfs, folder, df. repeat split; trivial.
    apply Permutation_map, sort_values_perm.
Qed.

(** C9: the two density-ratio constants and the values they are computed
    from reach no output.  The run is the run of the script without these
    computations, and it is the same whatever the float power returns. *)
Theorem sigma_constants_unused :
  forall (E : env) (pow : float -> float -> float)
         (paths : list string) (out graph : string),
    plot_data E paths out graph = plot_data_without_sigma E paths out graph /\
    plot_data (Env (listdir E) (read_csv E) pow (interp1d_cubic E) (linspace E))
      paths out graph
    = plot_data E paths out graph.
Proof.
  intros [dir rd pw ip ls] pow paths out graph. split; reflexivity.
Qed.


(** *** Instances on concrete folders *)



(** The scan of a folder with an unreadable file, a one-column file, a
    file without rows, a good file and a file that is no CSV. *)
Example scan_damaged_folder :
  scan damaged "A"
    ["broken.1.csv"; "narrow.2.csv"; "empty.3.csv"; "run.100.csv"; "notes.txt"]
    []
  = ([Print "Error reading broken.1.csv: No such file or directory: 'A/broken.1.csv'";
      Print "File narrow.2.csv does not have a second column.";
      Print "Error reading empty.3.csv: single positional indexer is out-of-bounds"],
     Ok [("run.100", CInt 80)]).
Proof. vm_compute. reflexivity. Qed.

Lemma merge_is_inner_join_witness :
  (has_key m_NumericPart scenario_merged 30.48%float <->
   forall folder df,
     In (folder, df) [("A", table_A); ("B", table_B)] ->
     has_key NumericPart df 30.48%float)
  /\ merge_loop None [("A", table_A); ("B", table_C)] = Some []
  /\ exists merged,
       merge_loop None [("A", table_A); ("B", table_B)] = Some merged /\
       List.length merged = List.length table_A /\
       List.length merged = List.length table_B.
Proof.
  destruct merge_is_inner_join as [Hkeys [Hdisjoint Hsame]].
  split; [|split].
  - apply (Hkeys [("A", table_A); ("B", table_B)] scenario_merged 30.48%float).
    vm_compute. reflexivity.
  - apply (Hdisjoint "A" "B" table_A table_C).
    intros ra rb [<-|[<-|[]]] [<-|[]]; vm_compute; reflexivity.
  - apply (Hsame "A" "B" table_A table_B).
    + repeat constructor; vm_compute; reflexivity.
    + repeat constructor; vm_compute; reflexivity.
    + intros k. split; intros [r [Hr Hk]].
      * destruct Hr as [<-|[<-|[]]].
        -- exists (run_row "run.100" 100 55). split; [now left | exact Hk].
        -- exists (run_row "run.200" 200 85). split; [right; now left | exact Hk].
      * destruct Hr as [<-|[<-|[]]].
        -- exists (run_row "run.100" 100 50). split; [now left | exact Hk].
        -- exists (run_row "run.200" 200 80). split; [right; now left | exact Hk].
Defined.

Lemma export_and_plot_sorted_witness :
  (ascending m_NumericPart scenario_merged /\
   exists all_dfs merged,
     outcome (process_csv_folders scenario ["A"; "B"]) = Ok all_dfs /\
     merge_loop None all_dfs = Some merged /\
     Permutation scenario_merged merged)
  /\
  (ascending (fun k : float => k)
     [100 * 0.3048; 200 * 0.3048; 300 * 0.3048; 400 * 0.3048]%float /\
   exists all_dfs folder df,
     outcome (process_csv_folders four_runs ["A"]) = Ok all_dfs /\
     In (folder, df) all_dfs /\
     Permutation [100 * 0.3048; 200 * 0.3048; 300 * 0.3048; 400 * 0.3048]%float
       (map NumericPart df)).
Proof.
  split.
  - apply (proj1 (export_and_plot_sorted scenario ["A"; "B"]
                    "out.xlsx" "out.png") "out.xlsx" scenario_merged).
    vm_compute. right. right. left. reflexivity.
  - apply (proj2 (export_and_plot_sorted four_runs ["A"] "out.xlsx" "out.png")
             "Data points A"
             [100 * 0.3048; 200 * 0.3048; 300 * 0.3048; 400 * 0.3048]%float
             (map Potencia_necesaria
                [run_row "run.100" 100 50;
                 Row "run.200" (CFloat 80.5) (200 * 0.3048) (80.5 * 4.44822)
                   (200 * 0.3048 * (80.5 * 4.44822) / 1000);
                 run_row "run.300" 300 120; run_row "run.400" 400 170])).
    vm_compute. do 5 right. left. reflexivity.
Defined.


(** * Further properties of the script *)

(** ** The scan *)

Section ScanMore.

Variable E : env.
Variable folder_path : string.

Lemma scan_file_not_csv (filename : string) (data : dict cell) :
  is_csv filename = false ->
  scan_file E folder_path filename data = ret data.
Proof. unfold is_csv, scan_file. now intros ->. Qed.

Lemma dict_set_nodup {V} (k : string) (v : V) (d : dict V) :
  NoDup (map fst d) -> NoDup (map fst (dict_set k v d)).
Proof.
  induction d as [|[k' v'] d IH]; simpl; intros Hnd.
  - constructor; [intros [] | constructor].
  - inversion Hnd as [|? ? Hk' Hnd']; subst.
    destruct (String.eqb_spec k' k) as [->|Hne]; simpl.
    + now constructor.
    + constructor; [|now apply IH].
      intros Hin. apply Hk'. clear IH Hnd Hnd' Hk'.
      induction d as [|[k2 v2] d IH]; simpl in *.
      * destruct Hin as [Heq|[]]. congruence.
      * destruct (String.eqb_spec k2 k) as [->|Hne2]; simpl in Hin; tauto.
Qed.

Lemma dict_set_length {V} (k : string) (v : V) (d : dict V) :
  (List.length (dict_set k v d) <= S (List.length d))%nat /\
  (List.length d <= List.length (dict_set k v d))%nat.
Proof.
  induction d as [|[k' v'] d IH]; simpl; [lia|].
  destruct (String.eqb k' k); simpl; lia.
Qed.

Lemma scan_file_step (filename : string) (data data' : dict cell) :
  outcome (scan_file E folder_path filename data) = Ok data' ->
  data' = data \/
  (is_csv filename = true /\
   exists v, data' = dict_set (Py.splitext_root filename) v data).
Proof.
  unfold scan_file, is_csv.
  destruct (Py.endswith filename ".csv");
    [|simpl; intros H; inversion H; now left].
  destruct (read_csv E (Py.path_join folder_path filename)) as [df|e];
    [|simpl; intros H; inversion H; now left].
  destruct (1 <? shape1 df)%nat; [|simpl; intros H; inversion H; now left].
  destruct (iloc_last df 1) as [v|e]; simpl; intros H; inversion H;
    [right; eauto | now left].
Qed.

End ScanMore.

(** X1: names that do not end in [.csv] are passed over: the scan of a
    listing prints and returns what the scan of its [.csv] names does. *)
Theorem scan_reads_csv_only :
  forall (E : env) (folder_path : string) (names : list string)
         (data : dict cell),
    scan E folder_path names data
    = scan E folder_path (filter is_csv names) data.
Proof.
  intros E folder_path names. induction names as [|filename names IH];
    intros data; [reflexivity|].
  cbn [filter]. destruct (is_csv filename) eqn:Hcsv; cbn [scan].
  - apply bind_ext. intros data1. apply IH.
  - rewrite (scan_file_not_csv E folder_path filename data Hcsv), bind_ret_l.
    apply IH.
Qed.

(** X2: the rows of a scan have pairwise distinct names, and there are
    no more of them than [.csv] names in the listing: a base name met
    again takes the place of the earlier one. *)
Theorem scan_names_distinct :
  forall (E : env) (folder_path : string) (names : list string)
         (data : dict cell),
    outcome (scan E folder_path names []) = Ok data ->
    NoDup (map fst data) /\
    (List.length data <= List.length (filter is_csv names))%nat /\
    forall k, In k (map fst data) ->
      exists filename, In filename names /\ is_csv filename = true /\
                       k = Py.splitext_root filename.
Proof.
  intros E folder_path names.
  assert (forall data0 data,
             outcome (scan E folder_path names data0) = Ok data ->
             NoDup (map fst data0) ->
             NoDup (map fst data) /\
             (List.length data
              <= List.length data0 + List.length (filter is_csv names))%nat /\
             forall k, In k (map fst data) ->
               In k (map fst data0) \/
               exists filename, In filename names /\ is_csv filename = true /\
                                k = Py.splitext_root filename) as Hgen.
  { induction names as [|filename names IH]; intros data0 data; cbn [scan].
    - simpl. intros H Hnd. inversion H; subst. repeat split; auto. lia.
    - destruct (scan_file_returns E folder_path filename data0) as [data1 H1].
      rewrite (bind_ok _ _ _ H1). simpl outcome. intros Hd Hnd.
      destruct (scan_file_step E folder_path filename data0 data1 H1)
        as [->|[Hcsv [v ->]]].
      + destruct (IH data0 data Hd Hnd) as [Hnd' [Hlen Hkeys]].
        split; [exact Hnd'|]. split.
        * cbn [filter]. destruct (is_csv filename); simpl; lia.
        * intros k Hk. destruct (Hkeys k Hk) as [Hold|[f [Hf Hrest]]];
            [now left|]. right. exists f. split; [now right | exact Hrest].
      + destruct (IH _ data Hd (dict_set_nodup _ v data0 Hnd))
          as [Hnd' [Hlen Hkeys]].
        split; [exact Hnd'|]. split.
        * cbn [filter]. rewrite Hcsv. simpl.
          pose proof (dict_set_length (Py.splitext_root filename) v data0).
          lia.
        * intros k Hk. destruct (Hkeys k Hk) as [Hold|[f [Hf Hrest]]].
          -- apply in_map_iff in Hold as [[k0 v0] [<- Hin]].
             destruct (dict_set_in _ _ _ _ _ Hin) as [Heq|Hin0].
             ++ inversion Heq; subst. right. exists filename.
                split; [now left | now split].
             ++ left. apply in_map_iff. now exists (k0, v0).
          -- right. exists f. split; [now right | exact Hrest]. }
  intros data Hd. destruct (Hgen [] data Hd (NoDup_nil _)) as [Hnd [Hlen Hkeys]].
  split; [exact Hnd|]. split; [simpl in Hlen; exact Hlen|].
  intros k Hk. destruct (Hkeys k Hk) as [[]|Hfile]. exact Hfile.
Qed.

(** ** File names and the conversion *)




Lemma mapM_ok_iff {A B} (f : A -> result B) (l : list A) :
  (exists bs, mapM f l = Ok bs) <-> forall a, In a l -> exists b, f a = Ok b.
Proof.
  induction l as [|a l IH]; simpl.
  - split; [intros _ a [] | eauto].
  - split.
    + intros [bs H] a' [<-|Hin].
      * destruct (f a); [eauto | discriminate].
      * destruct (f a); [|discriminate].
        destruct (mapM f l) as [bs'|]; [|discriminate].
        apply (proj1 IH); eauto.
    + intros Hall. destruct (Hall a (or_introl eq_refl)) as [b ->].
      destruct (proj2 IH) as [bs ->]; eauto.
Qed.

(** The first element that fails gives the exception. *)
(** X4: the conversion of a folder's rows succeeds exactly when every
    base name ends in a number and every last value is a number. *)
Theorem convert_succeeds_iff :
  forall (data : dict cell),
    (exists df, convert data = Ok df) <->
    (forall name, In name (map fst data) ->
                  exists k, extract_numeric_part name = Ok k) /\
    (forall v, In v (map snd data) -> exists m, cell_number v = Some m).
Proof.
  intros data. unfold convert. split.
  - intros [df H].
    destruct (mapM extract_numeric_part (map fst data)) as [numeric|] eqn:Hk;
      [|discriminate].
    destruct (mapM (cell_mul lbf_a_N) (map snd data)) as [drag|] eqn:Hd;
      [|discriminate].
    split.
    + apply (proj1 (mapM_ok_iff _ _)). eauto.
    + intros v Hv.
      destruct (proj1 (mapM_ok_iff _ _) (ex_intro _ drag Hd) v Hv) as [d Hvd].
      destruct (cell_mul_number _ _ _ Hvd) as [m [Hm _]]. eauto.
  - intros [Hnames Hvalues].
    destruct (proj2 (mapM_ok_iff extract_numeric_part (map fst data)) Hnames)
      as [numeric ->].
    destruct (proj2 (mapM_ok_iff (cell_mul lbf_a_N) (map snd data)))
      as [drag ->]; [|eauto].
    intros v Hv. destruct (Hvalues v Hv) as [m Hm].
    unfold cell_mul. rewrite Hm. eauto.
Qed.

(** ** The loop over the folders *)

Section FoldersMore.

Variable E : env.

Lemma process_folders_app (paths paths' : list string)
  (all_data : dict folder_table) :
  process_folders E (paths ++ paths') all_data
  = bind (process_folders E paths all_data) (process_folders E paths').
Proof.
  revert all_data. induction paths as [|p paths IH]; intros all_data.
  - symmetry. apply bind_ret_l.
  - cbn [process_folders app]. rewrite bind_assoc. apply bind_ext.
    intros d. apply IH.
Qed.

(** What one turn of the loop does, by what the scan returns. *)
Lemma process_folder_unlistable (folder_path : string) (e : exn)
  (all_data : dict folder_table) :
  listdir E folder_path = Raise e ->
  process_folder E folder_path all_data = ([], Raise e).
Proof. intros Hdir. unfold process_folder. now rewrite Hdir. Qed.

(** A folder none of whose files has a value gives no row. *)
End FoldersMore.

(** X5: a folder that cannot be listed is not recovered from: when the
    folders before it are processed, the exception of [os.listdir] ends
    the folder loop and the run, after the diagnostics of those folders
    and before any merge, spreadsheet or figure. *)
Theorem unlistable_folder_aborts_run :
  forall (E : env) (before after : list string) (folder : string)
         (e : exn) (all_data : dict folder_table) (out graph : string),
    outcome (process_csv_folders E before) = Ok all_data ->
    listdir E folder = Raise e ->
    process_csv_folders E (before ++ folder :: after)
    = (trace (process_csv_folders E before), Raise e) /\
    plot_data E (before ++ folder :: after) out graph
    = (trace (process_csv_folders E before), Raise e).
Proof.
  intros E before after folder e all_data out graph Hbefore Hdir.
  assert (process_csv_folders E (before ++ folder :: after)
          = (trace (process_csv_folders E before), Raise e)) as Hp.
  { unfold process_csv_folders in *. rewrite process_folders_app.
    rewrite (bind_ok _ _ _ Hbefore). cbn [process_folders].
    rewrite (process_folder_unlistable E folder e all_data Hdir).
    simpl. now rewrite app_nil_r. }
  split; [exact Hp|].
  unfold plot_data. rewrite Hp. reflexivity.
Qed.

(** ** The merged table *)

Section UniqueKeys.

Lemma FOP_app {A} (R : A -> A -> Prop) (l l' : list A) :
  ForallOrdPairs R l -> ForallOrdPairs R l' ->
  (forall a b, In a l -> In b l' -> R a b) ->
  ForallOrdPairs R (l ++ l').
Proof.
  intros Hl Hl' Hcross. induction Hl as [|a l Ha _ IH]; simpl; [exact Hl'|].
  constructor.
  - apply Forall_app. split; [exact Ha|].
    apply Forall_forall. intros b Hb. apply Hcross; [now left | exact Hb].
  - apply IH. intros x y Hx Hy. apply Hcross; [now right | exact Hy].
Qed.

Lemma FOP_short {A} (R : A -> A -> Prop) (l : list A) :
  (List.length l <= 1)%nat -> ForallOrdPairs R l.
Proof.
  destruct l as [|a [|b l]]; simpl; intros Hlen.
  - constructor.
  - constructor; constructor.
  - lia.
Qed.

Lemma filter_right_unique (right : folder_table) (k : float) :
  unique_keys NumericPart right ->
  (List.length (filter (fun r => key_eqb k (NumericPart r)) right) <= 1)%nat.
Proof.
  intros Huniq.
  rewrite (filter_ext _ (fun r => key_eqb (NumericPart r) k))
    by (intros r; apply key_eqb_sym).
  now apply filter_unique_key.
Qed.

Lemma length_flat_map_le {A B} (f : A -> list B) (l : list A) :
  (forall a, In a l -> (List.length (f a) <= 1)%nat) ->
  (List.length (flat_map f l) <= List.length l)%nat.
Proof.
  induction l as [|a l IH]; intros H; [simpl; lia|].
  simpl. rewrite length_app.
  pose proof (H a (or_introl eq_refl)).
  assert (List.length (flat_map f l) <= List.length l)%nat
    by (apply IH; intros a' Ha'; apply H; now right).
  lia.
Qed.

Lemma pd_merge_unique (left : merged_table) (right : folder_table)
  (suffix : string) :
  unique_keys m_NumericPart left ->
  unique_keys NumericPart right ->
  unique_keys m_NumericPart (pd_merge left right suffix).
Proof.
  intros Hleft Hright. unfold unique_keys, pd_merge.
  induction Hleft as [|l left Hl _ IH]; simpl; [constructor|].
  apply FOP_app.
  - apply FOP_short. rewrite length_map. now apply filter_right_unique.
  - exact IH.
  - intros a b Ha Hb. apply in_map_iff in Ha as [r [<- _]]. simpl.
    apply in_flat_map in Hb as [l' [Hl' Hb]].
    apply in_map_iff in Hb as [r' [<- _]]. simpl.
    rewrite Forall_forall in Hl. now apply Hl.
Qed.

Lemma pd_merge_length_le (left : merged_table) (right : folder_table)
  (suffix : string) :
  unique_keys m_NumericPart left ->
  unique_keys NumericPart right ->
  (List.length (pd_merge left right suffix) <= List.length left)%nat /\
  (List.length (pd_merge left right suffix) <= List.length right)%nat.
Proof.
  intros Hleft Hright. rewrite length_pd_merge. split.
  - apply length_flat_map_le. intros l _. now apply filter_right_unique.
  - rewrite count_pairs_swap. apply length_flat_map_le. intros r _.
    now apply filter_unique_key.
Qed.

Lemma merge_loop_unique (items : dict folder_table) (m m' : merged_table) :
  unique_keys m_NumericPart m ->
  (forall folder df, In (folder, df) items -> unique_keys NumericPart df) ->
  merge_loop (Some m) items = Some m' ->
  unique_keys m_NumericPart m' /\
  (List.length m' <= List.length m)%nat /\
  forall folder df, In (folder, df) items ->
                    (List.length m' <= List.length df)%nat.
Proof.
  revert m. induction items as [|[folder df] items IH]; intros m Hm Hitems;
    cbn [merge_loop].
  - intros H; inversion H; subst. repeat split; auto. intros ? ? [].
  - intros H.
    assert (unique_keys NumericPart df) as Hdf by (apply (Hitems folder); now left).
    destruct (pd_merge_length_le m df ("_" ++ Py.basename folder) Hm Hdf)
      as [Hlen1 Hlen2].
    destruct (IH _ (pd_merge_unique m df _ Hm Hdf)
                (fun f d Hin => Hitems f d (or_intror Hin)) H)
      as [Huniq [Hlen Hrest]].
    split; [exact Huniq|]. split; [lia|].
    intros f d [Heq|Hin]; [inversion Heq; subst; lia | eauto].
Qed.

End UniqueKeys.

(** X6: when no key comes twice within a folder table, no key comes
    twice in the merged table, and the merged table has no more rows
    than any of the folder tables: rows are dropped by the merge, never
    multiplied. *)
Theorem merge_of_unique_keys :
  forall (items : dict folder_table) (merged : merged_table),
    (forall folder df, In (folder, df) items -> unique_keys NumericPart df) ->
    merge_loop None items = Some merged ->
    unique_keys m_NumericPart merged /\
    forall folder df, In (folder, df) items ->
                      (List.length merged <= List.length df)%nat.
Proof.
  intros [|[folder df] items] merged Hitems; simpl; [discriminate|].
  intros Hm.
  assert (unique_keys NumericPart df) as Hdf by (apply (Hitems folder); now left).
  destruct (merge_loop_unique items (of_folder_table df) merged
              (unique_keys_of_folder_table df Hdf)
              (fun f d Hin => Hitems f d (or_intror Hin)) Hm)
    as [Huniq [Hlen Hrest]].
  split; [exact Huniq|].
  intros f d [Heq|Hin]; [|eauto].
  inversion Heq; subst. unfold of_folder_table in Hlen.
  now rewrite length_map in Hlen.
Qed.

(** ** The further properties on concrete folders *)

Lemma scan_names_distinct_witness :
  NoDup (map fst [("run.100", CInt 80)]) /\
  (List.length [("run.100", CInt 80)]
   <= List.length
        (filter is_csv
           ["broken.1.csv"; "narrow.2.csv"; "empty.3.csv"; "run.100.csv";
            "notes.txt"]))%nat /\
  forall k, In k (map fst [("run.100", CInt 80)]) ->
    exists filename,
      In filename
         ["broken.1.csv"; "narrow.2.csv"; "empty.3.csv"; "run.100.csv";
          "notes.txt"] /\
      is_csv filename = true /\ k = Py.splitext_root filename.
Proof.
  apply (scan_names_distinct damaged "A"
           ["broken.1.csv"; "narrow.2.csv"; "empty.3.csv"; "run.100.csv";
            "notes.txt"] [("run.100", CInt 80)]).
  vm_compute. reflexivity.
Defined.


Lemma unlistable_folder_aborts_run_witness :
  process_csv_folders scenario (["A"] ++ "missing" :: ["B"])
  = (trace (process_csv_folders scenario ["A"]), Raise (no_such_file "missing")) /\
  plot_data scenario (["A"] ++ "missing" :: ["B"]) "out.xlsx" "out.png"
  = (trace (process_csv_folders scenario ["A"]), Raise (no_such_file "missing")).
Proof.
  apply (unlistable_folder_aborts_run scenario ["A"] ["B"] "missing"
           (no_such_file "missing") [("A", table_A)] "out.xlsx" "out.png").
  - vm_compute. reflexivity.
  - reflexivity.
Defined.

Lemma merge_of_unique_keys_witness :
  unique_keys m_NumericPart scenario_merged /\
  forall folder df,
    In (folder, df) [("A", table_A); ("B", table_B)] ->
    (List.length scenario_merged <= List.length df)%nat.
Proof.
  apply (merge_of_unique_keys [("A", table_A); ("B", table_B)] scenario_merged).
  - intros folder df [Heq|[Heq|[]]]; inversion Heq; subst;
      repeat constructor; vm_compute; reflexivity.
  - vm_compute. reflexivity.
Defined.
